(** * Cash-register audit ledger (audit.py): shallow embedding and proofs

    The program keeps one SQLite table, [audits], behind a Streamlit page.
    This development embeds

    - the civil dates and timestamps the program formats with [strftime]
      and compares as TEXT inside SQL,
    - the table with its AUTOINCREMENT key and the four functions that
      touch it ([save_audit], [load_audits_filtered], [delete_audit_by_id],
      [delete_all_audits]),
    - the two places that colour a difference (the one-shot alert and
      [highlight_difference]),
    - the frames built for display and for the XLSX download,
    - the session slot [audit_result] and the script run of [app_main].

    Monetary amounts are Python floats; they are binary64 values here too. *)

From Stdlib Require Import NArith ZArith List String Ascii Bool Lia.
From Stdlib Require Import Permutation Sorted.
From Stdlib Require Import Floats.
Import ListNotations.

Set Warnings "-inexact-float".

Open Scope string_scope.
Open Scope N_scope.

(* ================================================================= *)
(** ** Civil dates and timestamps (datetime.date, datetime.datetime) *)

Record date := mkdate { year : N; month : N; day : N }.

Record datetime := mkdatetime
  { dt_date : date; hour : N; minute : N; second : N }.

Definition MINYEAR : N := 1.
Definition MAXYEAR : N := 9999.

Definition is_leap (y : N) : bool :=
  ((y mod 4 =? 0) && negb (y mod 100 =? 0)) || (y mod 400 =? 0).

Definition days_in_month (y m : N) : N :=
  match m with
  | 2 => if is_leap y then 29 else 28
  | 4 | 6 | 9 | 11 => 30
  | _ => 31
  end.

(** The class invariant of [datetime.date]. *)
Definition date_ok (d : date) : bool :=
  (MINYEAR <=? year d) && (year d <=? MAXYEAR) &&
  (1 <=? month d) && (month d <=? 12) &&
  (1 <=? day d) && (day d <=? days_in_month (year d) (month d)).

(** The years that [%Y] prints with four digits. *)
Definition four_digit_year (d : date) : bool := 1000 <=? year d.

Definition filter_date_ok (d : date) : bool := date_ok d && four_digit_year d.

(** A reading of the wall clock, [datetime.now(BRASILIA_TZ)]. *)
Definition clock_ok (t : datetime) : bool :=
  filter_date_ok (dt_date t) &&
  (hour t <? 24) && (minute t <? 60) && (second t <? 60).

(** [d + timedelta(days=1)]; [None] is Python's OverflowError, raised
    when the result would pass [date.max]. *)
Definition add_one_day (d : date) : option date :=
  if day d <? days_in_month (year d) (month d)
  then Some (mkdate (year d) (month d) (day d + 1))
  else if month d <? 12
  then Some (mkdate (year d) (month d + 1) 1)
  else if year d <? MAXYEAR
  then Some (mkdate (year d + 1) 1 1)
  else None.

(** Chronological order on the fields. *)
Definition lex (c1 c2 : comparison) : comparison :=
  match c1 with Eq => c2 | _ => c1 end.

Definition date_compare (a b : date) : comparison :=
  lex (year a ?= year b) (lex (month a ?= month b) (day a ?= day b)).

Definition datetime_compare (a b : datetime) : comparison :=
  lex (date_compare (dt_date a) (dt_date b))
      (lex (hour a ?= hour b)
           (lex (minute a ?= minute b) (second a ?= second b))).

Definition date_ltb (a b : date) : bool :=
  match date_compare a b with Lt => true | _ => false end.

Definition datetime_leb (a b : datetime) : bool :=
  match datetime_compare a b with Gt => false | _ => true end.

Definition date_eqb (a b : date) : bool :=
  match date_compare a b with Eq => true | _ => false end.

(** The first and the last second of a civil day. *)
Definition midnight (d : date) : datetime := mkdatetime d 0 0 0.
Definition last_second (d : date) : datetime := mkdatetime d 23 59 59.

(** *** strftime *)

Definition digit (n : N) : ascii := ascii_of_N (48 + n).

(** Decimal in a fixed width, padded with zeros ([%02d], [%04d]). *)
Fixpoint zero_pad (width : nat) (n : N) : string :=
  match width with
  | O => ""
  | S w => zero_pad w (n / 10) ++ String (digit (n mod 10)) ""
  end.

(** [%Y]: CPython hands the format to the C library, and glibc prints
    the year as a plain decimal, without padding: 999 for the year 999.
    A [date] has a year from 1 to 9999. *)
Definition strftime_Y (y : N) : string :=
  if y <? 10 then zero_pad 1 y
  else if y <? 100 then zero_pad 2 y
  else if y <? 1000 then zero_pad 3 y
  else zero_pad 4 y.

(** [d.strftime('%Y-%m-%d')] *)
Definition strftime_Ymd (d : date) : string :=
  strftime_Y (year d) ++ "-" ++ zero_pad 2 (month d) ++ "-" ++
  zero_pad 2 (day d).

(** [d.strftime('%Y-%m-%d 00:00:00')] *)
Definition strftime_midnight (d : date) : string :=
  strftime_Ymd d ++ " 00:00:00".

(** [t.strftime('%Y-%m-%d %H:%M:%S')] *)
Definition strftime_YmdHMS (t : datetime) : string :=
  strftime_Ymd (dt_date t) ++ " " ++ zero_pad 2 (hour t) ++ ":" ++
  zero_pad 2 (minute t) ++ ":" ++ zero_pad 2 (second t).

(** Reading a stored timestamp back: the inverse of [strftime_YmdHMS]. *)
Definition digit_val (c : ascii) : option N :=
  let n := N_of_ascii c in
  if (48 <=? n) && (n <=? 57) then Some (n - 48) else None.

Definition bind {A B} (o : option A) (k : A -> option B) : option B :=
  match o with Some a => k a | None => None end.

Notation "x <- o ;; k" := (bind o (fun x => k))
  (at level 61, o at next level, right associativity).

Definition two_digits (a b : ascii) : option N :=
  x <- digit_val a ;; y <- digit_val b ;; Some (10 * x + y).

Definition four_digits (a b c d : ascii) : option N :=
  x <- two_digits a b ;; y <- two_digits c d ;; Some (100 * x + y).

Definition strptime (s : string) : option datetime :=
  match s with
  | String y1 (String y2 (String y3 (String y4 (String p1
    (String m1 (String m2 (String p2
    (String d1 (String d2 (String p3
    (String h1 (String h2 (String p4
    (String i1 (String i2 (String p5
    (String s1 (String s2 EmptyString)))))))))))))))))) =>
      if Ascii.eqb p1 "-" && Ascii.eqb p2 "-" && Ascii.eqb p3 " " &&
         Ascii.eqb p4 ":" && Ascii.eqb p5 ":"
      then
        y <- four_digits y1 y2 y3 y4 ;;
        m <- two_digits m1 m2 ;;
        d <- two_digits d1 d2 ;;
        h <- two_digits h1 h2 ;;
        i <- two_digits i1 i2 ;;
        s <- two_digits s1 s2 ;;
        Some (mkdatetime (mkdate y m d) h i s)
      else None
  | _ => None
  end.

Close Scope N_scope.
Open Scope Z_scope.

(* ================================================================= *)
(** ** The table [audits] *)

(** One row, with the columns of CREATE TABLE in their order. *)
Record audit := mkaudit
  { id : Z;
    pdv_number : string;
    audit_datetime : string;
    operator_name : string;
    supervisor_name : string;
    prevention_name : string;
    counted_value : float;
    expected_value : float;
    difference : float;
    tef_value : float }.

(** The database file: the rows of [audits] in rowid order, and the
    counter that SQLite keeps in [sqlite_sequence] for an AUTOINCREMENT
    key.  DELETE leaves that counter alone. *)
Record database := mkdb { audits : list audit; sqlite_sequence : Z }.

(** CREATE TABLE IF NOT EXISTS: a missing file becomes an empty table. *)
Definition init_db (file : option database) : database :=
  match file with
  | Some db => db
  | None => mkdb [] 0
  end.

Definition max_rowid (rows : list audit) : Z :=
  fold_right (fun r m => Z.max (id r) m) 0 rows.

(** AUTOINCREMENT: one more than the largest rowid the table ever had. *)
Definition next_rowid (db : database) : Z :=
  Z.max (sqlite_sequence db) (max_rowid (audits db)) + 1.

(** What a REAL column gives back for the float that was bound to it.
    SQLite keeps a REAL that has no fraction as an integer and turns it
    into a REAL again when the row is read, so negative zero comes back
    as 0.0.  A NaN is stored as NULL, the missing value; the rows here
    hold floats, and NaN stands for it.  Every other float comes back
    as it went in. *)
Definition sqlite_real (x : float) : float :=
  if (x =? 0)%float then 0%float else x.

(** [now] is the reading of [datetime.now(BRASILIA_TZ)].  The row is
    written as a later SELECT reads it. *)
Definition save_audit (pdv operator supervisor prevention : string)
    (counted expected difference tef : float)
    (now : datetime) (db : database) : Z * database :=
  let now := strftime_YmdHMS now in
  let last_id := next_rowid db in
  (last_id,
   mkdb (audits db ++
         [mkaudit last_id pdv now operator supervisor prevention
                  (sqlite_real counted) (sqlite_real expected)
                  (sqlite_real difference) (sqlite_real tef)])
        last_id).

Inductive exn := OverflowError | KeyError.

Inductive outcome (A : Type) :=
| Returned (a : A)
| Raised (e : exn).
Arguments Returned {A} a.
Arguments Raised {A} e.

(** The two conditions the query text can carry; the literal is the
    formatted date between the quotes. *)
Inductive condition :=
| audit_datetime_ge (literal : string)
| audit_datetime_lt (literal : string).

(** TEXT values compare byte by byte (BINARY collation). *)
Definition holds (c : condition) (r : audit) : bool :=
  match c with
  | audit_datetime_ge s => negb (audit_datetime r <? s)%string
  | audit_datetime_lt s => (audit_datetime r <? s)%string
  end.

(** WHERE c1 AND c2 ... over a scan in rowid order. *)
Definition where_all (conditions : list condition) (rows : list audit)
  : list audit :=
  filter (fun r => forallb (fun c => holds c r) conditions) rows.

(** ORDER BY audit_datetime DESC.  The query names no second key; SQLite's
    sorter leaves rows with equal keys in scan order.  A stable sort has
    one possible result, so insertion from the right stands for it. *)
Fixpoint insert_desc (r : audit) (sorted : list audit) : list audit :=
  match sorted with
  | [] => [r]
  | x :: rest =>
      if (audit_datetime r <? audit_datetime x)%string
      then x :: insert_desc r rest
      else r :: sorted
  end.

Fixpoint order_by_audit_datetime_desc (rows : list audit) : list audit :=
  match rows with
  | [] => []
  | r :: rest => insert_desc r (order_by_audit_datetime_desc rest)
  end.

Definition read_sql_query (conditions : list condition) (db : database)
  : list audit :=
  order_by_audit_datetime_desc (where_all conditions (audits db)).

(** The frame that comes back is kept as its typed rows. *)
Definition load_audits_filtered (start_date end_date : option date)
    (db : database) : outcome (list audit) :=
  let conditions :=
    match start_date with
    | Some d => [audit_datetime_ge (strftime_midnight d)]
    | None => []
    end in
  match end_date with
  | Some e =>
      match add_one_day e with
      | Some next =>
          Returned (read_sql_query
                      (conditions ++ [audit_datetime_lt (strftime_midnight next)])
                      db)
      | None => Raised OverflowError
      end
  | None => Returned (read_sql_query conditions db)
  end.

(** What an INTEGER of SQLite holds, and what the driver takes for a
    parameter: a signed 64-bit integer. *)
Definition fits_int64 (z : Z) : bool :=
  (-9223372036854775808 <=? z) && (z <=? 9223372036854775807).

(** DELETE FROM audits WHERE id = ?; the count is [cursor.rowcount].
    A Python int outside 64 bits cannot be bound to the parameter:
    [execute] raises OverflowError and the table is as it was. *)
Definition delete_audit_by_id (audit_id : Z) (db : database)
  : outcome Z * database :=
  if fits_int64 audit_id then
    let deleted_count :=
      Z.of_nat (List.length (filter (fun r => id r =? audit_id) (audits db))) in
    (Returned deleted_count,
     mkdb (filter (fun r => negb (id r =? audit_id)) (audits db))
          (sqlite_sequence db))
  else (Raised OverflowError, db).

(** DELETE FROM audits *)
Definition delete_all_audits (db : database) : Z * database :=
  (Z.of_nat (List.length (audits db)), mkdb [] (sqlite_sequence db)).

(* ================================================================= *)
(** ** Frames, display and download *)

Inductive cell :=
| cell_int (z : Z)
| cell_text (s : string)
| cell_real (x : float).

Record DataFrame := mkframe
  { columns : list string; values : list (list cell) }.

Definition audits_columns : list string :=
  ["id"; "pdv_number"; "audit_datetime"; "operator_name";
   "supervisor_name"; "prevention_name"; "counted_value";
   "expected_value"; "difference"; "tef_value"].

Definition audit_cells (r : audit) : list cell :=
  [cell_int (id r); cell_text (pdv_number r); cell_text (audit_datetime r);
   cell_text (operator_name r); cell_text (supervisor_name r);
   cell_text (prevention_name r); cell_real (counted_value r);
   cell_real (expected_value r); cell_real (difference r);
   cell_real (tef_value r)].

(** SELECT * as a frame. *)
Definition frame_of (rows : list audit) : DataFrame :=
  mkframe audits_columns (map audit_cells rows).

Fixpoint column_index (name : string) (cols : list string) : option nat :=
  match cols with
  | [] => None
  | c :: rest =>
      if (c =? name)%string then Some O
      else match column_index name rest with
           | Some i => Some (S i)
           | None => None
           end
  end.

Fixpoint column_indexes (names cols : list string) : option (list nat) :=
  match names with
  | [] => Some []
  | n :: rest =>
      match column_index n cols, column_indexes rest cols with
      | Some i, Some ixs => Some (i :: ixs)
      | _, _ => None
      end
  end.

(** [df[names]]; a missing name is a KeyError. *)
Definition select_columns (names : list string) (df : DataFrame)
  : outcome DataFrame :=
  match column_indexes names (columns df) with
  | Some ixs =>
      Returned (mkframe names
                  (map (fun row => map (fun i => nth i row (cell_text "")) ixs)
                       (values df)))
  | None => Raised KeyError
  end.

Fixpoint renamed (mapping : list (string * string)) (c : string) : string :=
  match mapping with
  | [] => c
  | (old, new) :: rest => if (old =? c)%string then new else renamed rest c
  end.

(** [df.rename(columns=mapping)] *)
Definition rename (mapping : list (string * string)) (df : DataFrame)
  : DataFrame :=
  mkframe (map (renamed mapping) (columns df)) (values df).

Record sheet := mksheet
  { sheet_name : string; header : list string; body : list (list cell) }.

(** What [to_excel(writer, index=False, sheet_name='Auditorias')] puts in
    the workbook: the sheets with their header row and cells.  The bytes
    of the container are not modelled. *)
Definition convert_df_to_excel (df : DataFrame) : list sheet :=
  [mksheet "Auditorias" (columns df) (values df)].

Definition display_selection : list string :=
  ["id"; "pdv_number"; "audit_datetime"; "operator_name"; "supervisor_name";
   "prevention_name"; "counted_value"; "tef_value"; "difference";
   "expected_value"].

Definition display_names : list (string * string) :=
  [("id", "ID");
   ("pdv_number", "PDV");
   ("audit_datetime", "Data/Hora (BR)");
   ("operator_name", "Operador(a)");
   ("supervisor_name", "Fiscal");
   ("prevention_name", "Auditor");
   ("counted_value", "Dinheiro Contado (R$)");
   ("tef_value", "TEF Contado (R$)");
   ("expected_value", "Valor Esperado (R$)");
   ("difference", "Diferença (Dinheiro - TEF)")].

Definition cols_to_display : list string :=
  ["ID"; "Data/Hora (BR)"; "PDV"; "Operador(a)"; "Fiscal"; "Auditor";
   "Dinheiro Contado (R$)"; "TEF Contado (R$)"; "Diferença (Dinheiro - TEF)"].

(** [df_display] of [app_main]. *)
Definition df_display (df_audits : list audit) : outcome DataFrame :=
  match select_columns display_selection (frame_of df_audits) with
  | Returned df => Returned (rename display_names df)
  | Raised e => Raised e
  end.

(** [df_display_clean] of [app_main]. *)
Definition df_display_clean (df_audits : list audit) : outcome DataFrame :=
  match df_display df_audits with
  | Returned df => select_columns cols_to_display df
  | Raised e => Raised e
  end.

Section Currency.

(** Python's [format(val, ',.2f')]: two decimals, commas between
    thousands. *)
Variable format_comma_2f : float -> string.

Fixpoint replace (old new : ascii) (s : string) : string :=
  match s with
  | EmptyString => EmptyString
  | String c rest =>
      String (if Ascii.eqb c old then new else c) (replace old new rest)
  end.

Definition format_currency_br (val : float) : string :=
  if is_nan val then "R$ 0,00"
  else replace "X" "." (replace "." "," (replace "," "X"
         ("R$ " ++ format_comma_2f val))).

(** [styler.format({column: format_currency_br, ...})]: the text that
    the styled table shows in a cell of a column that has the formatter;
    [None] where the column has none and the value is shown as it is.
    The columns that get the formatter hold REAL values. *)
Definition format_cell (formatted : list string) (column : string) (c : cell)
  : option string :=
  match c with
  | cell_real val =>
      if existsb (String.eqb column) formatted
      then Some (format_currency_br val)
      else None
  | _ => None
  end.

Definition displayed (formatted : list string) (df : DataFrame)
  : list (list (option string)) :=
  map (fun row =>
         map (fun cc => format_cell formatted (fst cc) (snd cc))
             (combine (columns df) row))
      (values df).

End Currency.

(** The keys of the dict that [app_main] passes to [.format]. *)
Definition currency_columns : list string :=
  ["Dinheiro Contado (R$)"; "TEF Contado (R$)"; "Diferença (Dinheiro - TEF)"].

(** The style of each element of the column it is applied to. *)
Definition highlight_difference (s : list float) : list string :=
  map (fun val =>
         if (val <? -0.005)%float
         then "background-color: #fcebeb; color: #cc0000; font-weight: bold;"
         else if (0.005 <? val)%float
         then "background-color: #ecfced; color: #008000; font-weight: bold;"
         else "")
      s.

(* ================================================================= *)
(** ** The page: session state, alert, forms, script run *)

Definition ADMIN_PASSWORD : string := "123456".

Definition placeholder : string := "Selecione...".

(** The dict stored under [st.session_state.audit_result]. *)
Record result := mkresult
  { result_pdv_number : string;
    result_difference : float;
    result_counted_value : float;
    result_tef_value : float }.

(** [st.session_state], as the script initialises and uses it. *)
Record session_state := mksession
  { last_audit_id : Z; audit_result : option result }.

(** The three coloured boxes of the alert.  The HTML around them is
    fixed text; what varies is kept: title, colours, the word that
    relates the two amounts, and the amounts. *)
Record alert := mkalert
  { title : string;
    background_color : string;
    border_color : string;
    relation : string;
    shown : result }.

(** The branch of the alert that [app_main] takes for a result. *)
Definition show_alert (result : result) : alert :=
  let pdv := result_pdv_number result in
  let difference := result_difference result in
  if (difference <? -0.005)%float
  then mkalert ("QUEBRA DE CAIXA NO PDV " ++ pdv)
               "#fcebeb" "#cc0000" "MENOR" result
  else if (0.005 <? difference)%float
  then mkalert ("SOBRA DE CAIXA NO PDV " ++ pdv)
               "#ecfced" "#008000" "MAIOR" result
  else mkalert ("CAIXA FECHADO NO PDV " ++ pdv)
               "#e0f7ff" "#00bfff" "IGUAIS" result.

(** What a run puts on the page, in order.  The styled table is kept
    as its frame, the style of the difference cell of each row, and the
    columns that are shown through [format_currency_br]. *)
Inductive element :=
| markdown_alert (box : alert)
| error_select_all_responsibles
| exception_saving
| balloons
| dataframe (table : DataFrame) (styles : list string)
            (formatted : list string)
| download_button (data : list sheet)
| info_no_audits_in_period
| warning_nothing_to_delete
| success_deleted_id (delete_id : Z)
| warning_id_not_found (delete_id : Z)
| warning_id_not_in_history (delete_id : Z)
| success_deleted_all (deleted_count : Z)
| error_wrong_password.

Inductive button :=
| audit_form_submit
| form_delete_id_submit
| form_delete_all_submit.

(** The widget values of one run, the button that started it (if one
    did), and what the run meets outside: the clock, and whether SQLite
    refuses the INSERT.  A refused INSERT leaves the table as it was. *)
Record inputs := mkinputs
  { pdv_select : string;
    operator_select : string;
    supervisor_select : string;
    prevention_select : string;
    counted_input : float;
    tef_input : float;
    start_date : date;
    end_date : date;
    input_delete_id : Z;
    admin_password : string;
    clicked : option button;
    clock : datetime;
    insert_raises : bool }.

(** The database file and the state of one browser session.  Other
    sessions reach the file through the same forms. *)
Record world := mkworld { store : database; session : session_state }.

Definition is_clicked (b : button) (i : inputs) : bool :=
  match clicked i, b with
  | Some audit_form_submit, audit_form_submit => true
  | Some form_delete_id_submit, form_delete_id_submit => true
  | Some form_delete_all_submit, form_delete_all_submit => true
  | _, _ => false
  end.

(** Top of the script: show the pending alert, then empty the slot. *)
Definition alert_section (w : world) : world * list element :=
  match audit_result (session w) with
  | Some result =>
      (mkworld (store w) (mksession (last_audit_id (session w)) None),
       [markdown_alert (show_alert result)])
  | None => (w, [])
  end.

(** [with st.form("audit_form")]; the boolean asks for [st.rerun()]. *)
Definition audit_form (i : inputs) (w : world)
  : world * list element * bool :=
  if is_clicked audit_form_submit i then
    if (operator_select i =? placeholder)%string
       || (supervisor_select i =? placeholder)%string
       || (prevention_select i =? placeholder)%string
    then (w, [error_select_all_responsibles], false)
    else
      let difference := (counted_input i - tef_input i)%float in
      let expected_value := 0%float in
      if insert_raises i then (w, [exception_saving], false)
      else
        let (new_id, db) :=
          save_audit (pdv_select i) (operator_select i)
                     (supervisor_select i) (prevention_select i)
                     (counted_input i) expected_value difference
                     (tef_input i) (clock i) (store w) in
        (mkworld db
           (mksession new_id
              (Some (mkresult (pdv_select i) difference
                              (counted_input i) (tef_input i)))),
         [balloons], true)
  else (w, [], false).

(** The history table with its download, or the note that it is empty. *)
Definition history (df_audits : list audit) : outcome (list element) :=
  match df_audits with
  | [] => Returned [info_no_audits_in_period]
  | _ :: _ =>
      match df_display df_audits, df_display_clean df_audits with
      | Returned full, Returned clean =>
          Returned [dataframe clean
                      (highlight_difference (map difference df_audits))
                      currency_columns;
                    download_button (convert_df_to_excel full)]
      | Raised e, _ => Raised e
      | _, Raised e => Raised e
      end
  end.

(** How a run ends: at the bottom of the script, in [st.rerun()], or
    in an exception nothing catches. *)
Inductive ending :=
| finished
| rerun
| crashed (e : exn).

(** [with st.form("form_delete_id")]; nothing catches what
    [delete_audit_by_id] raises. *)
Definition form_delete_id (i : inputs) (df_audits : list audit) (w : world)
  : world * list element * ending :=
  if is_clicked form_delete_id_submit i then
    match df_audits with
    | [] => (w, [warning_nothing_to_delete], finished)
    | _ :: _ =>
        if existsb (fun r => id r =? input_delete_id i) df_audits then
          match delete_audit_by_id (input_delete_id i) (store w) with
          | (Returned deleted_count, db) =>
              if 0 <? deleted_count
              then (mkworld db (session w),
                    [success_deleted_id (input_delete_id i)], rerun)
              else (mkworld db (session w),
                    [warning_id_not_found (input_delete_id i)], finished)
          | (Raised e, db) => (mkworld db (session w), [], crashed e)
          end
        else (w, [warning_id_not_in_history (input_delete_id i)], finished)
    end
  else (w, [], finished).

(** The handler of [with st.form("form_delete_all")]. *)
Definition submit_delete_all (password_input : string) (w : world)
  : world * list element * bool :=
  if (password_input =? ADMIN_PASSWORD)%string then
    let (deleted_count, db) := delete_all_audits (store w) in
    (mkworld db (mksession 0 (audit_result (session w))),
     [success_deleted_all deleted_count], true)
  else (w, [error_wrong_password], false).

Definition form_delete_all (i : inputs) (w : world)
  : world * list element * bool :=
  if is_clicked form_delete_all_submit i
  then submit_delete_all (admin_password i) w
  else (w, [], false).

(** One run of the script, top to bottom, with the database file and
    the logo within reach: the failures of the file system are not
    followed here. *)
Definition app_main (i : inputs) (w : world)
  : world * list element * ending :=
  let (w1, out1) := alert_section w in
  let '(w2, out2, again) := audit_form i w1 in
  if again then (w2, (out1 ++ out2)%list, rerun) else
  match load_audits_filtered (Some (start_date i)) (Some (end_date i))
                             (store w2) with
  | Raised e => (w2, (out1 ++ out2)%list, crashed e)
  | Returned df_audits =>
      match history df_audits with
      | Raised e => (w2, (out1 ++ out2)%list, crashed e)
      | Returned out3 =>
          let '(w3, out4, e) := form_delete_id i df_audits w2 in
          match e with
          | finished =>
              let '(w4, out5, again) := form_delete_all i w3 in
              (w4, (out1 ++ out2 ++ out3 ++ out4 ++ out5)%list,
               if again then rerun else finished)
          | _ => (w3, (out1 ++ out2 ++ out3 ++ out4)%list, e)
          end
      end
  end.

(** The same widget values with no button pressed. *)
Definition no_click (i : inputs) : inputs :=
  mkinputs (pdv_select i) (operator_select i) (supervisor_select i)
           (prevention_select i) (counted_input i) (tef_input i)
           (start_date i) (end_date i) (input_delete_id i)
           (admin_password i) None (clock i) (insert_raises i).

(** An interaction: the run it starts and, when that run asks for it, the
    run that follows at once with the same widget values and no button. *)
Definition interaction (i : inputs) (w : world) : world * list element :=
  let '(w1, out1, e) := app_main i w in
  match e with
  | rerun => let '(w2, out2, _) := app_main (no_click i) w1 in
             (w2, (out1 ++ out2)%list)
  | _ => (w1, out1)
  end.

(** A new database file and a new session. *)
Definition fresh_world : world :=
  mkworld (init_db None) (mksession 0 None).

(** The world after a sequence of interactions, oldest first. *)
Definition after (trace : list inputs) (w : world) : world :=
  fold_left (fun w i => fst (interaction i w)) trace w.

(* ================================================================= *)
(** ** The vocabulary of the specification *)

Inductive classification := SHORTAGE | OVERAGE | BALANCED.

(** Classify, in the words of the specification. *)
Definition Classify (difference : float) : classification :=
  if (difference <? -0.005)%float then SHORTAGE
  else if (0.005 <? difference)%float then OVERAGE
  else BALANCED.

(** What each presentation shows for a class. *)
Definition alert_class (a : alert) : option classification :=
  if (background_color a =? "#fcebeb")%string then Some SHORTAGE
  else if (background_color a =? "#ecfced")%string then Some OVERAGE
  else if (background_color a =? "#e0f7ff")%string then Some BALANCED
  else None.

Definition style_class (style : string) : option classification :=
  if (style =? "background-color: #fcebeb; color: #cc0000; font-weight: bold;")%string
  then Some SHORTAGE
  else if (style =? "background-color: #ecfced; color: #008000; font-weight: bold;")%string
  then Some OVERAGE
  else if (style =? "")%string then Some BALANCED
  else None.

(** The civil time a stored timestamp stands for. *)
Definition civil_time (r : audit) : option datetime :=
  strptime (audit_datetime r).

(** The timestamp lies in [[start 00:00:00, end 23:59:59]]. *)
Definition within_days (start end_ : date) (r : audit) : bool :=
  match civil_time r with
  | Some t =>
      datetime_leb (midnight start) t && datetime_leb t (last_second end_)
  | None => false
  end.

(** The civil date of the timestamp is [D]. *)
Definition on_day (D : date) (r : audit) : bool :=
  match civil_time r with
  | Some t => date_eqb (dt_date t) D
  | None => false
  end.

(** The timestamp is what [save_audit] writes for some reading of the
    clock. *)
Definition timestamp_ok (r : audit) : bool :=
  match civil_time r with
  | Some t => clock_ok t && (strftime_YmdHMS t =? audit_datetime r)%string
  | None => false
  end.

(** The key the table declares: rowids grow along the scan, so no two
    rows share one, and none is above the AUTOINCREMENT counter. *)
Definition rowid_lt (a b : audit) : Prop := id a < id b.

Definition rowids_ok (db : database) : Prop :=
  StronglySorted rowid_lt (audits db) /\
  Forall (fun r => id r <= sqlite_sequence db) (audits db).

(** [a] may stand before [b]: the order of the specification, ties by
    descending id ... *)
Definition newest_first_then_id_desc (a b : audit) : Prop :=
  (audit_datetime b <? audit_datetime a)%string = true \/
  (audit_datetime a = audit_datetime b /\ id b < id a).

(** ... and the order the query yields, ties in rowid order. *)
Definition newest_first_then_rowid (a b : audit) : Prop :=
  (audit_datetime b <? audit_datetime a)%string = true \/
  (audit_datetime a = audit_datetime b /\ id a < id b).

(** The difference a record must carry. *)
Definition difference_holds (r : audit) : Prop :=
  difference r = (counted_value r - tef_value r)%float.

(* ================================================================= *)
(** ** Ledgers used as examples, and the vocabulary of the proofs *)

(** Two readings of the clock. *)
Definition a_morning : datetime := mkdatetime (mkdate 2025 3 9) 7 5 59.
Definition an_evening : datetime := mkdatetime (mkdate 2025 3 10) 18 30 0.

(** Two audits saved within the same second into a new file. *)
Definition one_day_ledger : database :=
  snd (save_audit "5" "A" "B" "C" 100 0 (100 - 120) 120 a_morning
        (snd (save_audit "6" "A" "B" "C" 50 0 (50 - 50) 50 a_morning
                (init_db None)))).

(** The same ledger with a third audit on the next day. *)
Definition two_day_ledger : database :=
  snd (save_audit "7" "D" "E" "F" 10 0 (10 - 5) 5 an_evening one_day_ledger).

(** The header row of the download, and the cells of a record in the
    download and in the table on the page. *)
Definition export_header : list string :=
  ["ID"; "PDV"; "Data/Hora (BR)"; "Operador(a)"; "Fiscal"; "Auditor";
   "Dinheiro Contado (R$)"; "TEF Contado (R$)";
   "Diferença (Dinheiro - TEF)"; "Valor Esperado (R$)"].

Definition export_cells (r : audit) : list cell :=
  [cell_int (id r); cell_text (pdv_number r); cell_text (audit_datetime r);
   cell_text (operator_name r); cell_text (supervisor_name r);
   cell_text (prevention_name r); cell_real (counted_value r);
   cell_real (tef_value r); cell_real (difference r);
   cell_real (expected_value r)].

Definition page_cells (r : audit) : list cell :=
  [cell_int (id r); cell_text (audit_datetime r); cell_text (pdv_number r);
   cell_text (operator_name r); cell_text (supervisor_name r);
   cell_text (prevention_name r); cell_real (counted_value r);
   cell_real (tef_value r); cell_real (difference r)].

(** From one state of the table to a later one: the counter does not go
    back, and a row of the later table is a row of the earlier one or a
    new row, above the earlier counter, that carries its difference. *)
Definition evolves (db db' : database) : Prop :=
  sqlite_sequence db <= sqlite_sequence db' /\
  forall r, In r (audits db') ->
            In r (audits db) \/ (sqlite_sequence db < id r /\ difference_holds r).

(** The alerts among the elements a run shows. *)
Definition alerts_in (out : list element) : list alert :=
  flat_map (fun e => match e with markdown_alert a => [a] | _ => [] end) out.

(** The run stores a new audit. *)
Definition creates (i : inputs) : bool :=
  is_clicked audit_form_submit i &&
  negb ((operator_select i =? placeholder)%string
        || (supervisor_select i =? placeholder)%string
        || (prevention_select i =? placeholder)%string) &&
  negb (insert_raises i).

(** What that run puts in the slot. *)
Definition created_result (i : inputs) : result :=
  mkresult (pdv_select i) (counted_input i - tef_input i)%float
           (counted_input i) (tef_input i).

(** The alert for the result that waits in the slot. *)
Definition pending_alert (w : world) : list alert :=
  match audit_result (session w) with
  | Some result => [show_alert result]
  | None => []
  end.

(** The alerts shown along a sequence of interactions, oldest first. *)
Fixpoint alerts_along (trace : list inputs) (w : world) : list alert :=
  match trace with
  | [] => []
  | i :: rest =>
      (alerts_in (snd (interaction i w))
       ++ alerts_along rest (fst (interaction i w)))%list
  end.

(** Every timestamp of the table is one that [save_audit] writes. *)
Definition stamps_ok (db : database) : bool :=
  forallb timestamp_ok (audits db).

(** What every part of the script keeps; [ok] says that the clock of
    the run gave a reading with a four-digit year. *)
Definition run_keeps (ok : bool) (w w' : world) : Prop :=
  evolves (store w) (store w') /\
  (rowids_ok (store w) -> rowids_ok (store w')) /\
  (ok = true -> stamps_ok (store w) = true -> stamps_ok (store w') = true).

(* ================================================================= *)
(** ** More of the page, and more vocabulary *)

(** The timestamp is at or after [start 00:00:00]. *)
Definition on_or_after (start : date) (r : audit) : bool :=
  match civil_time r with
  | Some t => datetime_leb (midnight start) t
  | None => false
  end.

(** The timestamp is at or before [end 23:59:59]. *)
Definition on_or_before (end_ : date) (r : audit) : bool :=
  match civil_time r with
  | Some t => datetime_leb t (last_second end_)
  | None => false
  end.

(** [a] may stand before [b] in a list that runs back in time: as TEXT,
    and on the calendar. *)
Definition not_older (a b : audit) : Prop :=
  (audit_datetime a <? audit_datetime b)%string = false.

Definition newer_or_same (a b : audit) : Prop :=
  exists ta tb,
    civil_time a = Some ta /\ civil_time b = Some tb /\
    datetime_leb tb ta = true.

(** The row that the form writes for the widget values [i] into [db]. *)
Definition created_row (i : inputs) (db : database) : audit :=
  mkaudit (next_rowid db) (pdv_select i) (strftime_YmdHMS (clock i))
          (operator_select i) (supervisor_select i) (prevention_select i)
          (sqlite_real (counted_input i)) 0%float
          (sqlite_real (counted_input i - tef_input i))
          (sqlite_real (tef_input i)).

(** [stored] is what a REAL column holds for the float [passed]: the
    float itself, but 0.0 for negative zero. *)
Definition stored_real (passed stored : float) : Prop :=
  stored = sqlite_real passed /\
  (passed <> (-0)%float -> stored = passed) /\
  (passed = (-0)%float -> stored = 0%float).

(** [sqlite_real] on the specification of binary64: a zero loses its
    sign, nothing else changes. *)
Definition SFnorm (s : spec_float) : spec_float :=
  match s with
  | S754_zero _ => S754_zero false
  | _ => s
  end.

(** Both number inputs are declared with [min_value=0.00]. *)
Definition amounts_ok (i : inputs) : bool :=
  (0 <=? counted_input i)%float && (0 <=? tef_input i)%float.

(** [df_audits['id'].max()] and [.min()] on a frame that is not empty. *)
Definition ids_max (first : audit) (rest : list audit) : Z :=
  fold_left (fun m r => Z.max m (id r)) rest (id first).

Definition ids_min (first : audit) (rest : list audit) : Z :=
  fold_left (fun m r => Z.min m (id r)) rest (id first).

(** The value the id input starts with: 1, or the largest id of the
    history when there is one. *)
Definition default_id (df_audits : list audit) : Z :=
  match df_audits with
  | [] => 1
  | first :: rest => ids_max first rest
  end.

(** What [format_currency_br] makes of one character of Python's text,
    as long as the text has no X. *)
Definition br_separator (c : ascii) : ascii :=
  if Ascii.eqb c "," then "."%char
  else if Ascii.eqb c "." then ","%char
  else c.

Fixpoint map_chars (f : ascii -> ascii) (s : string) : string :=
  match s with
  | EmptyString => EmptyString
  | String c rest => String (f c) (map_chars f rest)
  end.

Fixpoint has_char (c : ascii) (s : string) : bool :=
  match s with
  | EmptyString => false
  | String c' rest => Ascii.eqb c' c || has_char c rest
  end.

(** [d.strftime("%Y%m%d")] and the name of the file that the download
    button offers for the period on display. *)
Definition strftime_compact (d : date) : string :=
  strftime_Y (year d) ++ zero_pad 2 (month d) ++ zero_pad 2 (day d).

Definition download_file_name (start_date end_date : date) : string :=
  "auditorias_" ++ strftime_compact start_date ++ "_" ++
  strftime_compact end_date ++ ".xlsx".

(** The run shows the warning that the id was not found by the DELETE. *)
Definition reports_not_found (out : list element) : bool :=
  existsb (fun e => match e with warning_id_not_found _ => true | _ => false end)
          out.

(** Widget values used as examples: a submit of the audit form, a
    click on the delete-all button with the right password, a click on
    the delete-by-id button while one day is shown. *)
Definition a_submit (counted tef : float) : inputs :=
  mkinputs "5" "A" "B" "C" counted tef (mkdate 2025 3 1) (mkdate 2025 3 31)
           1 "" (Some audit_form_submit) a_morning false.

Definition a_delete_all : inputs :=
  mkinputs "5" "A" "B" "C" 0 0 (mkdate 2025 3 1) (mkdate 2025 3 31)
           1 "123456" (Some form_delete_all_submit) an_evening false.

Definition a_delete_of (delete_id : Z) : inputs :=
  mkinputs "5" "A" "B" "C" 0 0 (mkdate 2025 3 9) (mkdate 2025 3 9)
           delete_id "" (Some form_delete_id_submit) an_evening false.

(* ================================================================= *)
(** ** Strings: TEXT comparison of formatted timestamps *)

(** [lia] with quotients and remainders by constants. *)
Ltac Zify.zify_post_hook ::= Z.to_euclidean_division_equations.

(** Boolean tests on [N] in the hypotheses become propositions. *)
Ltac unbool :=
  repeat match goal with
         | H : _ && _ = true |- _ => apply andb_true_iff in H; destruct H
         | H : N.leb _ _ = true |- _ => apply N.leb_le in H
         | H : N.ltb _ _ = true |- _ => apply N.ltb_lt in H
         | H : N.leb _ _ = false |- _ => apply N.leb_gt in H
         | H : N.ltb _ _ = false |- _ => apply N.ltb_ge in H
         end.

(** A comparison on [N] whose result is known by arithmetic. *)
Ltac compare_lia :=
  match goal with
  | |- _ = N.compare _ _ => symmetry; compare_lia
  | |- N.compare _ _ = Eq => apply N.compare_eq_iff; lia
  | |- N.compare _ _ = Lt => apply N.compare_lt_iff; lia
  | |- N.compare _ _ = Gt => apply N.compare_gt_iff; lia
  end.

(** Case analysis on every comparison on [N] in sight. *)
Ltac split_compare :=
  repeat match goal with
         | |- context [N.compare ?a ?b] => destruct (N.compare_spec a b)
         | H : context [N.compare ?a ?b] |- _ => destruct (N.compare_spec a b)
         end.

Section CivilTime.
Local Open Scope N_scope.

Lemma compare_app_same_length (a1 a2 b1 b2 : string) :
  String.length a1 = String.length a2 ->
  String.compare (a1 ++ b1) (a2 ++ b2) =
  lex (String.compare a1 a2) (String.compare b1 b2).
Proof.
  revert a2. induction a1 as [|c a1 IH]; intros [|c' a2] Hlen;
    simpl in Hlen; try discriminate.
  - reflexivity.
  - simpl. destruct (Ascii.compare c c'); simpl; auto.
Qed.

Lemma compare_cons_same c (a b : string) :
  String.compare (String c a) (String c b) = String.compare a b.
Proof.
  simpl. unfold Ascii.compare. now rewrite N.compare_refl.
Qed.

Lemma length_app (a b : string) :
  String.length (a ++ b) = (String.length a + String.length b)%nat.
Proof. induction a as [|c a IH]; simpl; auto. Qed.

Lemma zero_pad_length w n : String.length (zero_pad w n) = w.
Proof.
  revert n. induction w as [|w IH]; intro n; simpl; auto.
  rewrite length_app, IH. simpl. lia.
Qed.

Lemma digit_compare x y :
  x < 10 -> y < 10 -> Ascii.compare (digit x) (digit y) = (x ?= y).
Proof.
  intros Hx Hy. unfold Ascii.compare, digit.
  rewrite !N_ascii_embedding by lia.
  destruct (N.compare_spec x y); compare_lia.
Qed.

Lemma lex_div10 a b :
  lex (a / 10 ?= b / 10) (a mod 10 ?= b mod 10) = (a ?= b).
Proof.
  destruct (N.compare_spec (a / 10) (b / 10)); simpl;
    [destruct (N.compare_spec (a mod 10) (b mod 10))| |]; compare_lia.
Qed.

Lemma zero_pad_compare w a b :
  a < 10 ^ N.of_nat w -> b < 10 ^ N.of_nat w ->
  String.compare (zero_pad w a) (zero_pad w b) = (a ?= b).
Proof.
  revert a b. induction w as [|w IH]; intros a b Ha Hb.
  - simpl in *. assert (a = 0) by lia. assert (b = 0) by lia. subst.
    reflexivity.
  - cbn [zero_pad].
    rewrite compare_app_same_length by (now rewrite !zero_pad_length).
    rewrite Nat2N.inj_succ, N.pow_succ_r' in Ha, Hb.
    rewrite IH by (apply N.Div0.div_lt_upper_bound; lia).
    cbn [String.compare].
    rewrite digit_compare by (apply N.mod_lt; lia).
    rewrite <- (lex_div10 a b).
    now destruct (a mod 10 ?= b mod 10).
Qed.

Lemma pad2_compare a b :
  a < 100 -> b < 100 ->
  String.compare (zero_pad 2 a) (zero_pad 2 b) = (a ?= b).
Proof. intros; apply zero_pad_compare; vm_compute N.pow; lia. Qed.

Lemma pad4_compare a b :
  a < 10000 -> b < 10000 ->
  String.compare (zero_pad 4 a) (zero_pad 4 b) = (a ?= b).
Proof. intros; apply zero_pad_compare; vm_compute N.pow; lia. Qed.

(** *** Calendar facts *)

Lemma days_in_month_bounds y m : 28 <= days_in_month y m <= 31.
Proof.
  unfold days_in_month.
  repeat match goal with
         | |- context [match ?x with _ => _ end] => destruct x
         end; lia.
Qed.

Lemma date_ok_bounds d :
  date_ok d = true ->
  1 <= year d <= 9999 /\ 1 <= month d <= 12 /\
  1 <= day d <= days_in_month (year d) (month d).
Proof. unfold date_ok, MINYEAR, MAXYEAR. intro H. unbool. lia. Qed.

Lemma clock_ok_bounds t :
  clock_ok t = true ->
  date_ok (dt_date t) = true /\ 1000 <= year (dt_date t) /\
  hour t < 24 /\ minute t < 60 /\ second t < 60.
Proof.
  unfold clock_ok, filter_date_ok, four_digit_year. intro H. unbool.
  repeat split; auto.
Qed.

(** *** Formatted dates compare as the dates do *)

Lemma strftime_Y_four y : 1000 <= y -> strftime_Y y = zero_pad 4 y.
Proof.
  intro H. unfold strftime_Y.
  destruct (N.ltb_spec y 10); [lia|].
  destruct (N.ltb_spec y 100); [lia|].
  destruct (N.ltb_spec y 1000); [lia|reflexivity].
Qed.

Lemma filter_date_ok_bounds d :
  filter_date_ok d = true -> date_ok d = true /\ 1000 <= year d.
Proof.
  unfold filter_date_ok, four_digit_year. intro H. unbool. now split.
Qed.

Lemma strftime_Ymd_length d :
  1000 <= year d -> String.length (strftime_Ymd d) = 10%nat.
Proof.
  intro H. unfold strftime_Ymd. rewrite strftime_Y_four by assumption.
  now rewrite !length_app, !zero_pad_length.
Qed.

Lemma strftime_Ymd_compare a b :
  filter_date_ok a = true -> filter_date_ok b = true ->
  String.compare (strftime_Ymd a) (strftime_Ymd b) = date_compare a b.
Proof.
  intros Ha Hb.
  apply filter_date_ok_bounds in Ha, Hb.
  destruct Ha as [Ha Hya], Hb as [Hb Hyb].
  apply date_ok_bounds in Ha, Hb.
  pose proof (days_in_month_bounds (year a) (month a)).
  pose proof (days_in_month_bounds (year b) (month b)).
  unfold strftime_Ymd, date_compare.
  rewrite !strftime_Y_four by assumption.
  rewrite compare_app_same_length by (now rewrite !zero_pad_length).
  rewrite pad4_compare by lia. f_equal.
  cbn [append]. rewrite compare_cons_same.
  rewrite compare_app_same_length by (now rewrite !zero_pad_length).
  rewrite pad2_compare by lia. f_equal.
  rewrite compare_cons_same. apply pad2_compare; lia.
Qed.

Lemma strftime_YmdHMS_compare a b :
  clock_ok a = true -> clock_ok b = true ->
  String.compare (strftime_YmdHMS a) (strftime_YmdHMS b) =
  datetime_compare a b.
Proof.
  intros Ha Hb.
  assert (Hfa : filter_date_ok (dt_date a) = true)
    by (unfold clock_ok in Ha; unbool; assumption).
  assert (Hfb : filter_date_ok (dt_date b) = true)
    by (unfold clock_ok in Hb; unbool; assumption).
  apply clock_ok_bounds in Ha, Hb.
  destruct Ha as (Hda & ? & ? & ? & ?), Hb as (Hdb & ? & ? & ? & ?).
  unfold strftime_YmdHMS, datetime_compare.
  rewrite compare_app_same_length by (now rewrite !strftime_Ymd_length).
  rewrite strftime_Ymd_compare by assumption. f_equal.
  cbn [append]. rewrite compare_cons_same.
  rewrite compare_app_same_length by (now rewrite !zero_pad_length).
  rewrite pad2_compare by lia. f_equal.
  rewrite compare_cons_same.
  rewrite compare_app_same_length by (now rewrite !zero_pad_length).
  rewrite pad2_compare by lia. f_equal.
  rewrite compare_cons_same. apply pad2_compare; lia.
Qed.

Lemma strftime_midnight_eq d :
  strftime_midnight d = strftime_YmdHMS (midnight d).
Proof. reflexivity. Qed.

Lemma midnight_clock_ok d : filter_date_ok d = true -> clock_ok (midnight d) = true.
Proof. intro H. unfold clock_ok. simpl. now rewrite H. Qed.

Lemma datetime_compare_antisym a b :
  datetime_compare a b = CompOpp (datetime_compare b a).
Proof.
  destruct a as [[ya ma da] ha ia sa], b as [[yb mb db] hb ib sb].
  unfold datetime_compare, date_compare, lex; simpl.
  rewrite (N.compare_antisym ya), (N.compare_antisym ma),
    (N.compare_antisym da), (N.compare_antisym ha),
    (N.compare_antisym ia), (N.compare_antisym sa).
  destruct (ya ?= yb), (ma ?= mb), (da ?= db), (ha ?= hb), (ia ?= ib),
    (sa ?= sb); reflexivity.
Qed.

(** *** The day after *)

Lemma add_one_day_ok e n :
  date_ok e = true -> add_one_day e = Some n ->
  date_ok n = true /\ year e <= year n.
Proof.
  intros He Hn. apply date_ok_bounds in He.
  unfold add_one_day, MAXYEAR in Hn.
  assert (Hb : forall y m, 1 <= days_in_month y m)
    by (intros y m; pose proof (days_in_month_bounds y m); lia).
  destruct (day e <? _) eqn:E1; [|destruct (month e <? 12) eqn:E2;
    [|destruct (year e <? 9999) eqn:E3; [|discriminate]]];
    injection Hn as <-; unbool; unfold date_ok, MINYEAR, MAXYEAR; simpl;
    (split; [|lia]);
    repeat (apply andb_true_iff; split); try apply N.leb_le; try lia;
    auto.
Qed.

Lemma add_one_day_None e :
  date_ok e = true ->
  (add_one_day e = None <-> e = mkdate 9999 12 31).
Proof.
  intro He. apply date_ok_bounds in He.
  split.
  - unfold add_one_day, MAXYEAR.
    destruct (day e <? _) eqn:E1; [discriminate|].
    destruct (month e <? 12) eqn:E2; [discriminate|].
    destruct (year e <? 9999) eqn:E3; [discriminate|]. intros _.
    unbool. destruct e as [y m d]; simpl in *.
    assert (m = 12) by lia. assert (y = 9999) by lia. subst.
    change (days_in_month 9999 12) with 31 in *.
    f_equal; lia.
  - intros ->. reflexivity.
Qed.

Lemma add_one_day_lt d e n :
  date_ok d = true -> date_ok e = true -> add_one_day e = Some n ->
  (date_compare d n = Lt <-> date_compare d e <> Gt).
Proof.
  intros Hd He Hn. apply date_ok_bounds in Hd, He.
  unfold add_one_day, MAXYEAR in Hn.
  destruct (day e <? _) eqn:E1; [|destruct (month e <? 12) eqn:E2;
    [|destruct (year e <? 9999) eqn:E3; [|discriminate]]];
    injection Hn as <-; unbool; unfold date_compare, lex; simpl.
  - split_compare; split; intros; try discriminate; try congruence; lia.
  - split_compare; split; intros; try discriminate; try congruence;
      try lia.
    all: replace (year d) with (year e) in * by lia;
         replace (month d) with (month e) in * by lia; lia.
  - split_compare; split; intros; try discriminate; try congruence;
      try lia.
    all: replace (year d) with (year e) in * by lia;
         replace (month d) with (month e) in * by lia; lia.
Qed.

(** *** The two conditions of the query, read on the calendar *)

Lemma condition_ge_civil start t :
  filter_date_ok start = true -> clock_ok t = true ->
  negb (strftime_YmdHMS t <? strftime_midnight start)%string =
  datetime_leb (midnight start) t.
Proof.
  intros Hs Ht. unfold String.ltb.
  rewrite strftime_midnight_eq, strftime_YmdHMS_compare
    by auto using midnight_clock_ok.
  rewrite datetime_compare_antisym. unfold datetime_leb.
  now destruct (datetime_compare (midnight start) t).
Qed.

Lemma filter_date_ok_next e n :
  filter_date_ok e = true -> add_one_day e = Some n ->
  filter_date_ok n = true.
Proof.
  unfold filter_date_ok, four_digit_year. intros He Hn.
  apply andb_true_iff in He. destruct He as [He Hy].
  destruct (add_one_day_ok e n He Hn) as [Hok Hle].
  rewrite Hok. simpl. apply N.leb_le. apply N.leb_le in Hy. lia.
Qed.

Lemma condition_lt_civil e n t :
  filter_date_ok e = true -> add_one_day e = Some n -> clock_ok t = true ->
  (strftime_YmdHMS t <? strftime_midnight n)%string =
  datetime_leb t (last_second e).
Proof.
  intros He Hn Ht. unfold String.ltb.
  rewrite strftime_midnight_eq, strftime_YmdHMS_compare
    by eauto using midnight_clock_ok, filter_date_ok_next.
  pose proof (clock_ok_bounds t Ht) as (Hd & _ & Hh & Hm & Hs).
  assert (He' : date_ok e = true)
    by (unfold filter_date_ok in He; now apply andb_true_iff in He).
  pose proof (add_one_day_lt (dt_date t) e n Hd He' Hn) as [H1 H2].
  unfold datetime_leb, datetime_compare, midnight, last_second; simpl.
  destruct (date_compare (dt_date t) n) eqn:En;
    destruct (date_compare (dt_date t) e) eqn:Ee; simpl;
    try (exfalso; (discriminate H2; congruence) || (now apply H1));
    try reflexivity.
  all: unfold lex; split_compare; try reflexivity; lia.
Qed.

(** *** Reading back what strftime wrote *)

Lemma digit_val_digit x : x < 10 -> digit_val (digit x) = Some x.
Proof.
  intro Hx. unfold digit_val, digit.
  rewrite N_ascii_embedding by lia.
  replace (48 <=? 48 + x) with true by (symmetry; apply N.leb_le; lia).
  replace (48 + x <=? 57) with true by (symmetry; apply N.leb_le; lia).
  cbn [andb]. f_equal. lia.
Qed.

Lemma two_digits_pad n :
  n < 100 ->
  two_digits (digit (n / 10 mod 10)) (digit (n mod 10)) = Some n.
Proof.
  intro Hn. unfold two_digits.
  rewrite !digit_val_digit by (apply N.mod_lt; lia). cbn [bind].
  f_equal. lia.
Qed.

Lemma four_digits_pad n :
  n < 10000 ->
  four_digits (digit (n / 10 / 10 / 10 mod 10)) (digit (n / 10 / 10 mod 10))
              (digit (n / 10 mod 10)) (digit (n mod 10)) = Some n.
Proof.
  intro Hn. unfold four_digits, two_digits.
  rewrite !digit_val_digit by (apply N.mod_lt; lia). cbn [bind].
  f_equal. lia.
Qed.

Lemma strptime_strftime t :
  clock_ok t = true -> strptime (strftime_YmdHMS t) = Some t.
Proof.
  intro Ht. apply clock_ok_bounds in Ht.
  destruct Ht as (Hd & Hy & Hh & Hm & Hs).
  apply date_ok_bounds in Hd.
  destruct t as [[y m d] h i s]; simpl in *.
  pose proof (days_in_month_bounds y m).
  unfold strftime_YmdHMS, strftime_Ymd. rewrite strftime_Y_four by assumption.
  cbn [zero_pad append dt_date year month day hour minute second].
  cbn [strptime]. 
  change (Ascii.eqb "-" "-") with true.
  change (Ascii.eqb " " " ") with true.
  change (Ascii.eqb ":" ":") with true.
  cbn [andb].
  rewrite four_digits_pad by lia.
  rewrite !two_digits_pad by lia.
  reflexivity.
Qed.

End CivilTime.

(* ================================================================= *)
(** ** REAL columns: what the subtraction of two floats can give

    [counted - tef] is negative zero only for [-0.0 - 0.0]: the
    difference of two finite floats that are not zero is exact at the
    smaller exponent, and rounding a mantissa that is not zero at an
    exponent above the least one never gives a zero. *)

Lemma shr_1_m mrs : 0 <= shr_m mrs -> shr_m (shr_1 mrs) = Z.div2 (shr_m mrs).
Proof.
  destruct mrs as [m r s]. cbn [shr_m]. intro H.
  destruct m as [|p|p]; [reflexivity| |lia].
  destruct p; reflexivity.
Qed.

Lemma iter_pos_shr_1 p : forall mrs,
  0 <= shr_m mrs ->
  shr_m (iter_pos shr_1 p mrs) = Z.shiftr (shr_m mrs) (Zpos p).
Proof.
  induction p as [p IH|p IH|]; intros mrs H; cbn [iter_pos].
  - assert (H1 : 0 <= shr_m (shr_1 mrs))
      by (rewrite shr_1_m by assumption; now apply Z.div2_nonneg).
    assert (H2 : 0 <= shr_m (iter_pos shr_1 p (shr_1 mrs)))
      by (rewrite IH by assumption; now apply Z.shiftr_nonneg).
    rewrite IH by assumption. rewrite IH by assumption.
    rewrite shr_1_m by assumption. rewrite Z.div2_spec.
    rewrite !Z.shiftr_shiftr by lia. f_equal. lia.
  - assert (H2 : 0 <= shr_m (iter_pos shr_1 p mrs))
      by (rewrite IH by assumption; now apply Z.shiftr_nonneg).
    rewrite IH by assumption. rewrite IH by assumption.
    rewrite !Z.shiftr_shiftr by lia. f_equal. lia.
  - rewrite shr_1_m by assumption. now rewrite Z.div2_spec.
Qed.

Lemma digits2_pos_le p : 2 ^ (Zpos (digits2_pos p) - 1) <= Zpos p.
Proof.
  induction p as [p IH|p IH|]; cbn [digits2_pos].
  - rewrite Pos2Z.inj_succ.
    replace (Z.succ (Zpos (digits2_pos p)) - 1)
      with (Z.succ (Zpos (digits2_pos p) - 1)) by lia.
    rewrite Z.pow_succ_r by lia. lia.
  - rewrite Pos2Z.inj_succ.
    replace (Z.succ (Zpos (digits2_pos p)) - 1)
      with (Z.succ (Zpos (digits2_pos p) - 1)) by lia.
    rewrite Z.pow_succ_r by lia. lia.
  - reflexivity.
Qed.

Lemma shr_fexp_positive m e l :
  0 < m -> emin <= e ->
  0 < shr_m (fst (shr_fexp prec emax m e l)) /\
  emin <= snd (shr_fexp prec emax m e l).
Proof.
  intros Hm He. unfold shr_fexp, shr.
  destruct m as [|p|p]; try lia. cbn [Zdigits2].
  assert (Hrec : shr_m (shr_record_of_loc (Zpos p) l) = Zpos p)
    by (destruct l as [|[| |]]; reflexivity).
  destruct (fexp prec emax (Zpos (digits2_pos p) + e) - e) as [|n|n] eqn:En;
    cbn [fst snd]; try (rewrite Hrec; split; lia).
  unfold fexp, SpecFloat.emin, prec, emax in *.
  rewrite iter_pos_shr_1 by (rewrite Hrec; lia). rewrite Hrec.
  rewrite Z.shiftr_div_pow2 by lia.
  pose proof (digits2_pos_le p) as Hd.
  split; [|lia].
  apply Z.div_str_pos. split; [apply Z.pow_pos_nonneg; lia|].
  eapply Z.le_trans; [|exact Hd].
  apply Z.pow_le_mono_r; lia.
Qed.

Lemma round_nearest_even_positive m l : 0 < m -> 0 < round_nearest_even m l.
Proof.
  intro H. unfold round_nearest_even.
  destruct l as [|[| |]]; try lia. destruct (Z.even m); lia.
Qed.

Lemma binary_round_aux_not_zero sx m e l s :
  0 < m -> emin <= e ->
  binary_round_aux prec emax sx m e l <> S754_zero s.
Proof.
  intros Hm He. unfold binary_round_aux.
  pose proof (shr_fexp_positive m e l Hm He) as H1.
  destruct (shr_fexp prec emax m e l) as [mrs' e']. cbn [fst snd] in H1.
  destruct H1 as [H1 He'].
  pose proof (shr_fexp_positive
                (round_nearest_even (shr_m mrs') (loc_of_shr_record mrs'))
                e' loc_Exact
                (round_nearest_even_positive _ _ H1) He') as H2.
  destruct (shr_fexp prec emax _ e' loc_Exact) as [mrs'' e''].
  cbn [fst snd] in H2. destruct H2 as [H2 _].
  destruct (shr_m mrs'') as [|p|p]; try lia.
  destruct (e'' <=? emax - prec); discriminate.
Qed.

Lemma binary_round_not_zero sx m e s :
  emin <= e -> binary_round prec emax sx m e <> S754_zero s.
Proof.
  intro He. unfold binary_round, shl_align.
  destruct (fexp prec emax (Zpos (digits2_pos m) + e) - e) as [|d|d] eqn:Ed;
    apply binary_round_aux_not_zero; try lia.
  unfold fexp, SpecFloat.emin, prec, emax in *. lia.
Qed.

Lemma valid_exponent s m e :
  valid_binary (S754_finite s m e) = true -> emin <= e.
Proof.
  unfold SpecFloat.valid_binary, bounded, canonical_mantissa.
  intro H. apply andb_true_iff in H. destruct H as [H _].
  apply Z.eqb_eq in H.
  unfold fexp, SpecFloat.emin, prec, emax in *. lia.
Qed.

Lemma SFsub_norm a b :
  valid_binary a = true -> valid_binary b = true ->
  SFnorm (SF64sub a b) = SF64sub (SFnorm a) (SFnorm b).
Proof.
  intros Ha Hb. unfold SF64sub, SFsub.
  destruct a as [sa|sa| |sa ma ea], b as [sb|sb| |sb mb eb];
    try reflexivity;
    try (destruct sa, sb; reflexivity);
    try (destruct sa; reflexivity);
    try (destruct sb; reflexivity).
  cbn [SFnorm].
  apply valid_exponent in Ha, Hb.
  set (m := (cond_Zopp sa (Zpos (fst (shl_align ma ea (Z.min ea eb)))) -
             cond_Zopp sb (Zpos (fst (shl_align mb eb (Z.min ea eb)))))).
  unfold binary_normalize.
  destruct m as [|p|p].
  - reflexivity.
  - destruct (binary_round prec emax false p (Z.min ea eb)) eqn:E;
      try reflexivity.
    exfalso. revert E. apply binary_round_not_zero. lia.
  - destruct (binary_round prec emax true p (Z.min ea eb)) eqn:E;
      try reflexivity.
    exfalso. revert E. apply binary_round_not_zero. lia.
Qed.

Lemma Prim2SF_sqlite_real x : Prim2SF (sqlite_real x) = SFnorm (Prim2SF x).
Proof.
  unfold sqlite_real. rewrite eqb_spec.
  change (Prim2SF 0) with (S754_zero false).
  destruct (Prim2SF x) as [s|s| |s m e] eqn:E; cbn.
  - reflexivity.
  - destruct s; exact E.
  - exact E.
  - destruct s; exact E.
Qed.

Lemma sqlite_real_sub c t :
  sqlite_real (c - t) = (sqlite_real c - sqlite_real t)%float.
Proof.
  apply Prim2SF_inj.
  rewrite Prim2SF_sqlite_real, !sub_spec, !Prim2SF_sqlite_real.
  apply SFsub_norm; apply Prim2SF_valid.
Qed.

Lemma neg_zero_ne : (0 : float) <> (-0)%float.
Proof.
  intro H. apply (f_equal classify) in H. vm_compute in H. discriminate.
Qed.

Lemma sqlite_real_cases x :
  (x <> (-0)%float /\ sqlite_real x = x) \/
  (x = (-0)%float /\ sqlite_real x = 0%float).
Proof.
  destruct (Prim2SF x) as [[|]|s| |s m e] eqn:E.
  - right. split; [|reflexivity || (apply Prim2SF_inj; rewrite Prim2SF_sqlite_real, E; reflexivity)].
    rewrite <- (SF2Prim_Prim2SF x), E. reflexivity.
  - left. split.
    + intros ->. vm_compute in E. discriminate.
    + apply Prim2SF_inj. rewrite Prim2SF_sqlite_real, E. reflexivity.
  - left. split.
    + intros ->. vm_compute in E. discriminate.
    + apply Prim2SF_inj. rewrite Prim2SF_sqlite_real, E. reflexivity.
  - left. split.
    + intros ->. vm_compute in E. discriminate.
    + apply Prim2SF_inj. rewrite Prim2SF_sqlite_real, E. reflexivity.
  - left. split.
    + intros ->. vm_compute in E. discriminate.
    + apply Prim2SF_inj. rewrite Prim2SF_sqlite_real, E. reflexivity.
Qed.

Lemma SFcompare_norm a b : SFcompare (SFnorm a) b = SFcompare a b.
Proof. destruct a as [s|s| |s m e], b as [s'|s'| |s' m' e']; reflexivity. Qed.

Lemma SFcompare_norm_r a b : SFcompare a (SFnorm b) = SFcompare a b.
Proof. destruct a as [s|s| |s m e], b as [s'|s'| |s' m' e']; reflexivity. Qed.

Lemma sqlite_real_ltb x y : (sqlite_real x <? y)%float = (x <? y)%float.
Proof.
  rewrite !ltb_spec, Prim2SF_sqlite_real. unfold SFltb.
  now rewrite SFcompare_norm.
Qed.

Lemma ltb_sqlite_real x y : (x <? sqlite_real y)%float = (x <? y)%float.
Proof.
  rewrite !ltb_spec, Prim2SF_sqlite_real. unfold SFltb.
  now rewrite SFcompare_norm_r.
Qed.

Lemma leb_sqlite_real x y : (x <=? sqlite_real y)%float = (x <=? y)%float.
Proof.
  rewrite !leb_spec, Prim2SF_sqlite_real. unfold SFleb.
  now rewrite SFcompare_norm_r.
Qed.

Lemma sqlite_real_idem x : sqlite_real (sqlite_real x) = sqlite_real x.
Proof.
  apply Prim2SF_inj. rewrite !Prim2SF_sqlite_real.
  now destruct (Prim2SF x).
Qed.

(* ================================================================= *)
(** ** ORDER BY audit_datetime DESC *)

Lemma ascii_compare_refl c : Ascii.compare c c = Eq.
Proof. unfold Ascii.compare. apply N.compare_refl. Qed.

Lemma ascii_compare_trans a b c :
  Ascii.compare a b = Lt -> Ascii.compare b c = Lt -> Ascii.compare a c = Lt.
Proof.
  unfold Ascii.compare. rewrite !N.compare_lt_iff. apply N.lt_trans.
Qed.

Lemma string_lt_trans (a b c : string) :
  String.compare a b = Lt -> String.compare b c = Lt ->
  String.compare a c = Lt.
Proof.
  revert b c. induction a as [|x a IH]; intros [|y b] [|z c]; simpl;
    try discriminate; auto.
  destruct (Ascii.compare x y) eqn:Exy; try discriminate;
    destruct (Ascii.compare y z) eqn:Eyz; try discriminate; intros H1 H2.
  - apply Ascii.compare_eq_iff in Exy, Eyz. subst.
    rewrite ascii_compare_refl. eauto.
  - apply Ascii.compare_eq_iff in Exy. subst. now rewrite Eyz.
  - apply Ascii.compare_eq_iff in Eyz. subst. now rewrite Exy.
  - now rewrite (ascii_compare_trans x y z).
Qed.

(** [b <= c] and [a < b] give [a < c]. *)
Lemma string_lt_le_trans (a b c : string) :
  (a <? b)%string = true -> (c <? b)%string = false ->
  (a <? c)%string = true.
Proof.
  unfold String.ltb. intros Hab Hcb.
  destruct (String.compare a b) eqn:Eab; try discriminate.
  destruct (String.compare c b) eqn:Ecb; try discriminate.
  - apply String.compare_eq_iff in Ecb. subst. now rewrite Eab.
  - rewrite String.compare_antisym in Ecb.
    destruct (String.compare b c) eqn:Ebc; try discriminate.
    now rewrite (string_lt_trans a b c).
Qed.

Lemma insert_desc_perm r l : Permutation (insert_desc r l) (r :: l).
Proof.
  induction l as [|x l IH]; simpl; auto.
  destruct (audit_datetime r <? audit_datetime x)%string; auto.
  rewrite IH. apply perm_swap.
Qed.

Lemma order_by_perm l : Permutation (order_by_audit_datetime_desc l) l.
Proof.
  induction l as [|r l IH]; simpl; auto.
  now rewrite insert_desc_perm, IH.
Qed.

Lemma insert_desc_sorted r l :
  StronglySorted newest_first_then_rowid l ->
  Forall (rowid_lt r) l ->
  StronglySorted newest_first_then_rowid (insert_desc r l).
Proof.
  induction l as [|x l IH]; intros Hs Hr; simpl.
  - repeat constructor.
  - apply StronglySorted_inv in Hs. destruct Hs as [Hs Hx].
    inversion Hr as [|? ? Hrx Hrl]; subst.
    destruct (audit_datetime r <? audit_datetime x)%string eqn:E.
    + constructor; auto.
      rewrite insert_desc_perm. constructor; auto. now left.
    + assert (Hfirst : forall y, rowid_lt r y ->
                (audit_datetime y <? audit_datetime x)%string = true \/
                audit_datetime x = audit_datetime y ->
                newest_first_then_rowid r y).
      { intros y Hid [Hy|Hy].
        - left. eapply string_lt_le_trans; eauto.
        - unfold newest_first_then_rowid. rewrite <- Hy.
          unfold String.ltb in *.
          rewrite (String.compare_antisym (audit_datetime x)
                                          (audit_datetime r)).
          destruct (String.compare (audit_datetime r) (audit_datetime x))
            eqn:C; try discriminate; simpl; auto.
          apply String.compare_eq_iff in C. right. now split. }
      constructor; [constructor; auto|].
      constructor; [apply Hfirst; auto|].
      rewrite Forall_forall in *. intros y Hy.
      apply Hfirst; auto.
      destruct (Hx y Hy) as [?|[? ?]]; auto.
Qed.

Lemma order_by_sorted l :
  StronglySorted rowid_lt l ->
  StronglySorted newest_first_then_rowid (order_by_audit_datetime_desc l).
Proof.
  induction l as [|r l IH]; intro Hs; simpl.
  - constructor.
  - apply StronglySorted_inv in Hs. destruct Hs as [Hs Hr].
    apply insert_desc_sorted; auto.
    now rewrite order_by_perm.
Qed.

Lemma StronglySorted_filter {A} (R : A -> A -> Prop) f l :
  StronglySorted R l -> StronglySorted R (filter f l).
Proof.
  induction 1 as [|a l Hs IH Ha]; simpl; [constructor|].
  destruct (f a); auto. constructor; auto.
  rewrite Forall_forall in *. intros x Hx.
  apply filter_In in Hx. now apply Ha.
Qed.

Lemma read_sql_query_sorted conditions db :
  StronglySorted rowid_lt (audits db) ->
  StronglySorted newest_first_then_rowid (read_sql_query conditions db).
Proof.
  intro H. apply order_by_sorted. now apply StronglySorted_filter.
Qed.

Lemma read_sql_query_perm conditions db :
  Permutation (read_sql_query conditions db)
              (where_all conditions (audits db)).
Proof. apply order_by_perm. Qed.

(* ================================================================= *)
(** ** The query: which rows, in which order *)

Lemma date_compare_antisym a b :
  date_compare a b = CompOpp (date_compare b a).
Proof.
  destruct a as [ya ma da], b as [yb mb db].
  unfold date_compare, lex; simpl.
  rewrite (N.compare_antisym ya), (N.compare_antisym ma),
    (N.compare_antisym da).
  destruct (ya ?= yb)%N, (ma ?= mb)%N, (da ?= db)%N; reflexivity.
Qed.

Lemma filter_date_ok_date_ok d : filter_date_ok d = true -> date_ok d = true.
Proof. unfold filter_date_ok. intro H. now apply andb_true_iff in H. Qed.

Lemma add_one_day_Some e :
  date_ok e = true -> e <> mkdate 9999 12 31 ->
  exists next, add_one_day e = Some next.
Proof.
  intros He Hmax. destruct (add_one_day e) as [n|] eqn:E; eauto.
  now apply add_one_day_None in E.
Qed.

Lemma before_last_day e start :
  date_ok start = true -> date_ltb e start = true -> e <> mkdate 9999 12 31.
Proof.
  intros Hs Hlt ->. apply date_ok_bounds in Hs.
  pose proof (days_in_month_bounds (year start) (month start)).
  unfold date_ltb, date_compare, lex in Hlt; cbn [year month day] in Hlt.
  destruct (N.compare_spec 9999 (year start)); try discriminate; try lia.
  destruct (N.compare_spec 12 (month start)); try discriminate; try lia.
  destruct (N.compare_spec 31 (day start)); try discriminate; lia.
Qed.

Lemma filter_none {A} (f : A -> bool) l :
  (forall x, In x l -> f x = false) -> filter f l = [].
Proof.
  induction l as [|a l IH]; intro H; simpl; auto.
  rewrite (H a) by now left. apply IH. intros; apply H; now right.
Qed.

Lemma timestamp_ok_inv r :
  timestamp_ok r = true ->
  exists t, civil_time r = Some t /\ clock_ok t = true /\
            audit_datetime r = strftime_YmdHMS t.
Proof.
  unfold timestamp_ok. destruct (civil_time r) as [t|]; [|discriminate].
  intro H. apply andb_true_iff in H. destruct H as [H1 H2].
  apply String.eqb_eq in H2. eauto.
Qed.

Lemma within_one_day D t :
  clock_ok t = true ->
  datetime_leb (midnight D) t && datetime_leb t (last_second D) =
  date_eqb (dt_date t) D.
Proof.
  intro Ht. apply clock_ok_bounds in Ht.
  destruct Ht as (_ & _ & Hh & Hm & Hs).
  unfold datetime_leb, datetime_compare, date_eqb, midnight, last_second;
    cbn [dt_date hour minute second].
  rewrite (date_compare_antisym D (dt_date t)).
  destruct (date_compare (dt_date t) D); cbn [CompOpp lex andb];
    try reflexivity.
  unfold lex.
  destruct (N.compare_spec 0 (hour t)), (N.compare_spec 0 (minute t)),
    (N.compare_spec 0 (second t)), (N.compare_spec (hour t) 23),
    (N.compare_spec (minute t) 59), (N.compare_spec (second t) 59);
    try reflexivity; lia.
Qed.

Lemma where_window_civil start e next rows :
  forallb timestamp_ok rows = true ->
  filter_date_ok start = true -> filter_date_ok e = true ->
  add_one_day e = Some next ->
  where_all [audit_datetime_ge (strftime_midnight start);
             audit_datetime_lt (strftime_midnight next)] rows =
  filter (within_days start e) rows.
Proof.
  intros Hrows Hs He Hn. unfold where_all.
  apply filter_ext_in. intros r Hr.
  rewrite forallb_forall in Hrows.
  destruct (timestamp_ok_inv r (Hrows r Hr)) as (t & Hc & Ht & Hts).
  unfold within_days. rewrite Hc. simpl. rewrite Hts, andb_true_r.
  now rewrite condition_ge_civil, (condition_lt_civil e next) by assumption.
Qed.

(** C7: with the start date 1000-01-01 and the end date 0999-12-30, the
    day before, the query does not return the empty sequence.  [%Y]
    prints the year 999 with three digits, every timestamp of this
    century is below 999-12-31 as TEXT and above 1000-01-01, and the
    three records of March 2025 come back. *)
Theorem query_inverted_range_returns_rows :
  date_ok (mkdate 1000 1 1) = true /\
  date_ok (mkdate 999 12 30) = true /\
  date_ltb (mkdate 999 12 30) (mkdate 1000 1 1) = true /\
  strftime_midnight (mkdate 1000 1 1) = "1000-01-01 00:00:00" /\
  option_map strftime_midnight (add_one_day (mkdate 999 12 30))
  = Some "999-12-31 00:00:00" /\
  exists out,
    load_audits_filtered (Some (mkdate 1000 1 1)) (Some (mkdate 999 12 30))
                         two_day_ledger = Returned out /\
    map id out = [3; 1; 2] /\
    load_audits_filtered (Some (mkdate 1000 1 1)) (Some (mkdate 999 12 30))
                         two_day_ledger <> Returned [].
Proof.
  repeat split; try (vm_compute; reflexivity).
  eexists. split; [vm_compute; reflexivity|].
  split; [reflexivity|]. vm_compute. discriminate.
Qed.

(** X21: with both dates given, in four-digit years, and the start date
    after the end date, the query returns the empty sequence and does
    not fail. *)
Theorem query_inverted_range_is_empty db start end_ :
  filter_date_ok start = true -> filter_date_ok end_ = true ->
  date_ltb end_ start = true ->
  load_audits_filtered (Some start) (Some end_) db = Returned [].
Proof.
  intros Hs He Hlt.
  pose proof (filter_date_ok_date_ok _ Hs) as Hs'.
  pose proof (filter_date_ok_date_ok _ He) as He'.
  destruct (add_one_day_Some end_ He' (before_last_day _ _ Hs' Hlt))
    as [next Hn].
  unfold load_audits_filtered. rewrite Hn. f_equal.
  unfold read_sql_query, where_all. rewrite filter_none; [reflexivity|].
  intros r _. simpl. rewrite andb_true_r.
  destruct (audit_datetime r <? strftime_midnight next)%string eqn:E;
    [|apply andb_false_r].
  rewrite andb_true_r. apply negb_false_iff.
  apply (string_lt_le_trans _ _ _ E).
  unfold String.ltb.
  rewrite !strftime_midnight_eq, strftime_YmdHMS_compare
    by eauto using midnight_clock_ok, filter_date_ok_next.
  unfold datetime_compare, midnight; simpl.
  pose proof (add_one_day_lt start end_ next Hs' He' Hn) as [H1 _].
  unfold date_ltb in Hlt. rewrite date_compare_antisym in Hlt.
  destruct (date_compare start next); try reflexivity.
  specialize (H1 eq_refl).
  destruct (date_compare start end_); simpl in Hlt; try discriminate.
  now elim H1.
Qed.

Lemma query_inverted_range_is_empty_witness :
  load_audits_filtered (Some (mkdate 2025 3 10)) (Some (mkdate 2025 3 9))
                       two_day_ledger = Returned [].
Proof.
  apply query_inverted_range_is_empty; reflexivity.
Defined.

(** The timestamps of the table stay well formed: [save_audit] writes
    one for a reading of the clock, the deletions write none. *)
Lemma save_audit_timestamps pdv operator supervisor prevention counted
      expected diff tef now db :
  clock_ok now = true ->
  stamps_ok db = true ->
  stamps_ok (snd (save_audit pdv operator supervisor prevention counted
                             expected diff tef now db)) = true.
Proof.
  intros Hnow Hdb. unfold stamps_ok, save_audit in *; cbn [snd audits].
  rewrite forallb_app, Hdb. cbn [forallb andb].
  unfold timestamp_ok, civil_time; cbn [audit_datetime].
  now rewrite strptime_strftime, Hnow, String.eqb_refl.
Qed.

(** Deleting by id: an id of 64 bits, and one that is refused. *)
Lemma delete_audit_by_id_fits x db :
  fits_int64 x = true ->
  delete_audit_by_id x db
  = (Returned
       (Z.of_nat (List.length (filter (fun r => id r =? x) (audits db)))),
     mkdb (filter (fun r => negb (id r =? x)) (audits db))
          (sqlite_sequence db)).
Proof. intro H. unfold delete_audit_by_id. now rewrite H. Qed.

Lemma delete_audit_by_id_overflow x db :
  fits_int64 x = false ->
  delete_audit_by_id x db = (Raised OverflowError, db).
Proof. intro H. unfold delete_audit_by_id. now rewrite H. Qed.

Lemma delete_audit_by_id_In x db r :
  In r (audits (snd (delete_audit_by_id x db))) -> In r (audits db).
Proof.
  unfold delete_audit_by_id. destruct (fits_int64 x); cbn [snd audits]; auto.
  intro H. now apply filter_In in H.
Qed.

Lemma delete_audit_by_id_sequence x db :
  sqlite_sequence (snd (delete_audit_by_id x db)) = sqlite_sequence db.
Proof. unfold delete_audit_by_id. now destruct (fits_int64 x). Qed.

Lemma delete_audit_by_id_timestamps x db :
  stamps_ok db = true -> stamps_ok (snd (delete_audit_by_id x db)) = true.
Proof.
  unfold stamps_ok. rewrite !forallb_forall. intros H r Hr.
  apply delete_audit_by_id_In in Hr. now apply H.
Qed.

(** X20: on a table whose timestamps were written by [save_audit], and
    for a start and an end date with four-digit years, the end date
    before 9999-12-31, the query returns exactly the rows whose
    timestamp lies in [[start 00:00:00, end 23:59:59]]; with
    start = end = D these are the rows whose civil date is D. *)
Theorem query_closed_interval db start end_ :
  stamps_ok db = true ->
  filter_date_ok start = true -> filter_date_ok end_ = true ->
  end_ <> mkdate 9999 12 31 ->
  exists out,
    load_audits_filtered (Some start) (Some end_) db = Returned out /\
    Permutation out (filter (within_days start end_) (audits db)) /\
    (start = end_ ->
     Permutation out (filter (on_day start) (audits db))).
Proof.
  intros Hrows Hs He Hmax. unfold stamps_ok in Hrows.
  destruct (add_one_day_Some end_ (filter_date_ok_date_ok _ He) Hmax)
    as [next Hn].
  unfold load_audits_filtered. rewrite Hn. simpl app.
  eexists. split; [reflexivity|].
  assert (Hperm : Permutation
            (read_sql_query
               [audit_datetime_ge (strftime_midnight start);
                audit_datetime_lt (strftime_midnight next)] db)
            (filter (within_days start end_) (audits db))).
  { rewrite read_sql_query_perm.
    now rewrite (where_window_civil start end_ next). }
  split; [exact Hperm|].
  intros <-. rewrite Hperm.
  erewrite filter_ext_in; [reflexivity|].
  intros r Hr. rewrite forallb_forall in Hrows.
  destruct (timestamp_ok_inv r (Hrows r Hr)) as (t & Hc & Ht & _).
  unfold within_days, on_day. rewrite Hc. now apply within_one_day.
Qed.

Lemma query_closed_interval_witness :
  exists out,
    load_audits_filtered (Some (mkdate 2025 3 9)) (Some (mkdate 2025 3 9))
                         two_day_ledger = Returned out /\
    Permutation out
      (filter (within_days (mkdate 2025 3 9) (mkdate 2025 3 9))
              (audits two_day_ledger)) /\
    (mkdate 2025 3 9 = mkdate 2025 3 9 ->
     Permutation out
       (filter (on_day (mkdate 2025 3 9)) (audits two_day_ledger))).
Proof.
  apply query_closed_interval;
    [vm_compute; reflexivity | reflexivity | reflexivity | discriminate].
Defined.

(** C4: with the end date 9999-12-31 the query does not return the
    records of the interval, three of them here, although the last
    second of the end day is meant to be included; it returns nothing,
    adding the day raises OverflowError. *)
Lemma query_last_day_raises :
  stamps_ok two_day_ledger = true /\
  filter_date_ok (mkdate 2025 3 9) = true /\
  filter_date_ok (mkdate 9999 12 31) = true /\
  List.length (filter (within_days (mkdate 2025 3 9) (mkdate 9999 12 31))
                      (audits two_day_ledger)) = 3%nat /\
  load_audits_filtered (Some (mkdate 2025 3 9)) (Some (mkdate 9999 12 31))
                       two_day_ledger = Raised OverflowError /\
  ~ exists out,
      load_audits_filtered (Some (mkdate 2025 3 9)) (Some (mkdate 9999 12 31))
                           two_day_ledger = Returned out /\
      Permutation out
        (filter (within_days (mkdate 2025 3 9) (mkdate 9999 12 31))
                (audits two_day_ledger)).
Proof.
  repeat split; try (vm_compute; reflexivity).
  intros (out & H & _). vm_compute in H. discriminate.
Qed.

(** C5 (as amended): the sequence the query returns is in descending
    order of timestamp, and rows with equal timestamps follow in the
    order of the scan, ascending id.  The query fails only where adding
    a day to the end date overflows. *)
Theorem query_newest_first db start_date end_date :
  StronglySorted rowid_lt (audits db) ->
  match load_audits_filtered start_date end_date db with
  | Returned out => StronglySorted newest_first_then_rowid out
  | Raised e =>
      e = OverflowError /\
      exists d, end_date = Some d /\ add_one_day d = None
  end.
Proof.
  intro Hs. unfold load_audits_filtered.
  destruct end_date as [e|].
  - destruct (add_one_day e) eqn:E.
    + now apply read_sql_query_sorted.
    + eauto.
  - now apply read_sql_query_sorted.
Qed.

Lemma query_newest_first_witness :
  match load_audits_filtered None None one_day_ledger with
  | Returned out => StronglySorted newest_first_then_rowid out
  | Raised e =>
      e = OverflowError /\
      exists d, @None date = Some d /\ add_one_day d = None
  end.
Proof.
  apply (query_newest_first one_day_ledger None None).
  repeat constructor.
Defined.

(** C5, the claim as written: two audits saved within the same second
    come back with the smaller id first, not in descending id. *)
Lemma query_ties_follow_rowid :
  exists a b,
    load_audits_filtered None None one_day_ledger = Returned [a; b] /\
    audit_datetime a = audit_datetime b /\ id a = 1 /\ id b = 2 /\
    ~ StronglySorted newest_first_then_id_desc [a; b].
Proof.
  do 2 eexists. split; [vm_compute; reflexivity|].
  repeat split.
  intro H. apply StronglySorted_inv in H. destruct H as [_ H].
  inversion H as [|? ? [Hlt|[_ Hid]] _]; subst.
  - vm_compute in Hlt. discriminate.
  - vm_compute in Hid. discriminate.
Qed.

(* ================================================================= *)
(** ** Writing and deleting rows *)

Lemma stored_real_sqlite_real x : stored_real x (sqlite_real x).
Proof.
  unfold stored_real. split; [reflexivity|].
  destruct (sqlite_real_cases x) as [[Hne ->]|[-> ->]]; split; intros;
    congruence.
Qed.

(** C10 (as amended): [save_audit] appends one row that holds the names
    exactly as passed and every amount as the REAL column keeps it: the
    float that was passed, but 0.0 for negative zero.  Names and amounts
    are not checked and the difference is stored as given, not computed,
    so the row satisfies the difference rule exactly when the caller
    passed counted - tef, up to the sign of a zero. *)
Theorem save_audit_stores_arguments
    pdv operator supervisor prevention counted expected diff tef now db :
  exists r,
    save_audit pdv operator supervisor prevention counted expected diff tef
               now db
    = (id r, mkdb (audits db ++ [r]) (id r)) /\
    id r = next_rowid db /\
    pdv_number r = pdv /\
    audit_datetime r = strftime_YmdHMS now /\
    operator_name r = operator /\
    supervisor_name r = supervisor /\
    prevention_name r = prevention /\
    stored_real counted (counted_value r) /\
    stored_real expected (expected_value r) /\
    stored_real diff (difference r) /\
    stored_real tef (tef_value r) /\
    (difference_holds r <-> sqlite_real diff = sqlite_real (counted - tef)) /\
    (diff = (counted - tef)%float -> difference_holds r).
Proof.
  eexists (mkaudit _ _ _ _ _ _ _ _ _ _).
  unfold save_audit, difference_holds; simpl.
  rewrite sqlite_real_sub.
  repeat split; auto using stored_real_sqlite_real;
    try (destruct (sqlite_real_cases counted) as [[? ->]|[-> ->]];
         congruence);
    try (destruct (sqlite_real_cases expected) as [[? ->]|[-> ->]];
         congruence);
    try (destruct (sqlite_real_cases diff) as [[? ->]|[-> ->]];
         congruence);
    try (destruct (sqlite_real_cases tef) as [[? ->]|[-> ->]];
         congruence).
  intros ->. apply sqlite_real_sub.
Qed.

(** C10, the claim as written: an amount of negative zero is not stored
    as passed; the row holds 0.0, which is another float. *)
Lemma save_audit_drops_sign_of_zero :
  exists r,
    audits (snd (save_audit "1" "A" "B" "C" (-0) 0 (-0 - 0) 0 a_morning
                            (init_db None))) = [r] /\
    counted_value r = 0%float /\ difference r = 0%float /\
    counted_value r <> (-0)%float /\
    difference r <> (-0 - 0)%float.
Proof.
  eexists. split; [reflexivity|].
  repeat split; cbn [counted_value difference]; intro H;
    apply (f_equal classify) in H; vm_compute in H; discriminate.
Qed.

(** A row that breaks the rule is stored as it is passed: placeholder
    name, an empty name, a negative amount, and a difference that is not
    counted - tef. *)
Example save_audit_checks_nothing :
  let db := snd (save_audit "1" placeholder "" "C" (-5) 0 7 2 a_morning
                            (init_db None)) in
  exists r, audits db = [r] /\ operator_name r = placeholder /\
            supervisor_name r = "" /\ counted_value r = (-5)%float /\
            difference r = 7%float /\ ~ difference_holds r.
Proof.
  eexists. repeat split. unfold difference_holds. vm_compute. discriminate.
Qed.

Lemma filter_all {A} (f : A -> bool) l :
  (forall x, In x l -> f x = true) -> filter f l = l.
Proof.
  induction l as [|a l IH]; intro H; simpl; auto.
  rewrite (H a) by now left. f_equal. apply IH. intros; apply H; now right.
Qed.

Lemma count_absent x rows :
  ~ In x (map id rows) -> filter (fun r => id r =? x) rows = [].
Proof.
  intro H. apply filter_none. intros r Hr.
  apply Z.eqb_neq. intros <-. apply H. now apply in_map.
Qed.

Lemma count_present x rows :
  NoDup (map id rows) -> In x (map id rows) ->
  List.length (filter (fun r => id r =? x) rows) = 1%nat.
Proof.
  induction rows as [|r rows IH]; simpl; intros Hnd Hx; [contradiction|].
  inversion Hnd as [|? ? Hnotin Hnd']; subst.
  destruct (Z.eqb_spec (id r) x) as [Heq|Hne].
  - rewrite Heq in Hnotin. simpl. f_equal. now rewrite count_absent.
  - destruct Hx as [Hx|Hx]; [contradiction|]. now apply IH.
Qed.

Lemma read_sql_query_In conditions db r :
  In r (read_sql_query conditions db) -> In r (audits db).
Proof.
  intro H. apply (Permutation_in _ (read_sql_query_perm conditions db)) in H.
  unfold where_all in H. now apply filter_In in H.
Qed.

Lemma load_audits_filtered_In start_date end_date db out r :
  load_audits_filtered start_date end_date db = Returned out ->
  In r out -> In r (audits db).
Proof.
  unfold load_audits_filtered.
  destruct end_date as [e|]; [destruct (add_one_day e)|];
    intro H; inversion H; subst; try discriminate;
    apply read_sql_query_In.
Qed.

(** C6 (as amended): for an id that the 64-bit key can hold, deleting
    by id removes the row with that id and counts 1; no later query
    returns a row with that id; when no row has the id, also on a second
    call, the count is 0, nothing is raised and the table is as it
    was. *)
Theorem delete_audit_by_id_spec x db :
  fits_int64 x = true ->
  NoDup (map id (audits db)) ->
  let (deleted_count, db') := delete_audit_by_id x db in
  (In x (map id (audits db)) -> deleted_count = Returned 1) /\
  (~ In x (map id (audits db)) -> deleted_count = Returned 0 /\ db' = db) /\
  (forall r, In r (audits db') <-> In r (audits db) /\ id r <> x) /\
  (forall start_date end_date out,
      load_audits_filtered start_date end_date db' = Returned out ->
      ~ In x (map id out)) /\
  delete_audit_by_id x db' = (Returned 0, db').
Proof.
  intros Hfit Hnd. rewrite !delete_audit_by_id_fits by assumption.
  cbn [audits sqlite_sequence].
  assert (Hgone : forall r,
             In r (filter (fun r => negb (id r =? x)) (audits db)) <->
             In r (audits db) /\ id r <> x).
  { intro r. rewrite filter_In, negb_true_iff, Z.eqb_neq. tauto. }
  assert (Hnot : ~ In x (map id (filter (fun r => negb (id r =? x))
                                        (audits db)))).
  { intro H. apply in_map_iff in H. destruct H as (r & Hid & Hr).
    apply Hgone in Hr. tauto. }
  assert (Hsame : ~ In x (map id (audits db)) ->
                  filter (fun r => negb (id r =? x)) (audits db) = audits db).
  { intro H. apply filter_all. intros r Hr. apply negb_true_iff, Z.eqb_neq.
    intros <-. apply H. now apply in_map. }
  split; [|split; [|split; [|split]]].
  - intro Hin. now rewrite count_present.
  - intro H. rewrite count_absent by assumption. split; [reflexivity|].
    rewrite (Hsame H). now destruct db.
  - exact Hgone.
  - intros start_date end_date out Hout Hin.
    apply in_map_iff in Hin. destruct Hin as (r & Hid & Hr).
    apply (load_audits_filtered_In _ _ _ _ _ Hout) in Hr.
    cbn [audits] in Hr. apply Hgone in Hr. tauto.
  - rewrite count_absent by assumption. f_equal. f_equal.
    apply filter_all. intros r Hr.
    apply negb_true_iff, Z.eqb_neq. intros <-. apply Hnot.
    now apply in_map.
Qed.

Lemma delete_audit_by_id_spec_witness :
  let (deleted_count, db') := delete_audit_by_id 1 two_day_ledger in
  (In 1 (map id (audits two_day_ledger)) -> deleted_count = Returned 1) /\
  (~ In 1 (map id (audits two_day_ledger)) ->
   deleted_count = Returned 0 /\ db' = two_day_ledger) /\
  (forall r, In r (audits db') <-> In r (audits two_day_ledger) /\ id r <> 1) /\
  (forall start_date end_date out,
      load_audits_filtered start_date end_date db' = Returned out ->
      ~ In 1 (map id out)) /\
  delete_audit_by_id 1 db' = (Returned 0, db').
Proof.
  apply (delete_audit_by_id_spec 1 two_day_ledger).
  - reflexivity.
  - vm_compute. repeat constructor; simpl; intuition discriminate.
Defined.

(** C6, the claim as written: no record has the id 2^63, and deleting
    by that id does not return the count 0: it raises OverflowError. *)
Lemma delete_audit_by_id_refuses_large_id :
  ~ In 9223372036854775808 (map id (audits two_day_ledger)) /\
  delete_audit_by_id 9223372036854775808 two_day_ledger
  = (Raised OverflowError, two_day_ledger) /\
  fst (delete_audit_by_id 9223372036854775808 two_day_ledger) <> Returned 0.
Proof.
  split; [|split].
  - vm_compute. intuition discriminate.
  - reflexivity.
  - discriminate.
Qed.

Lemma load_audits_filtered_empty start_date end_date seq :
  load_audits_filtered start_date end_date (mkdb [] seq) = Returned [] \/
  (load_audits_filtered start_date end_date (mkdb [] seq)
   = Raised OverflowError /\
   exists d, end_date = Some d /\ add_one_day d = None).
Proof.
  unfold load_audits_filtered.
  destruct end_date as [e|]; [destruct (add_one_day e) eqn:E|]; eauto.
Qed.


(** X22: a password that is not exactly the configured one deletes
    nothing, leaves every query as it was and is answered with the
    rejection; the configured password deletes every row, reports how
    many there were, and every later query returns the empty sequence
    or, with an end date of 9999-12-31, fails as it does on any table. *)
Theorem delete_all_requires_password password_input w :
  let '(w', out, again) := submit_delete_all password_input w in
  if (password_input =? ADMIN_PASSWORD)%string
  then
    audits (store w') = [] /\
    out = [success_deleted_all (Z.of_nat (List.length (audits (store w))))] /\
    load_audits_filtered None None (store w') = Returned [] /\
    forall start_date end_date,
      load_audits_filtered start_date end_date (store w') = Returned [] \/
      (load_audits_filtered start_date end_date (store w')
       = Raised OverflowError /\
       exists d, end_date = Some d /\ add_one_day d = None)
  else
    w' = w /\ out = [error_wrong_password] /\ again = false /\
    forall start_date end_date,
      load_audits_filtered start_date end_date (store w')
      = load_audits_filtered start_date end_date (store w).
Proof.
  unfold submit_delete_all, delete_all_audits.
  destruct (password_input =? ADMIN_PASSWORD)%string; cbn [store audits].
  - repeat split. intros. apply load_audits_filtered_empty.
  - repeat split.
Qed.

(** The comparison is exact: the password followed by a space is
    another string, and the table keeps its rows. *)
Example delete_all_near_miss :
  let w := mkworld two_day_ledger (mksession 3 None) in
  submit_delete_all "123456 " w = (w, [error_wrong_password], false) /\
  fst (fst (submit_delete_all "123456" w))
  = mkworld (mkdb [] 3) (mksession 0 None).
Proof. split; reflexivity. Qed.

(* ================================================================= *)
(** ** The three classes of a difference *)

Lemma band_upper : Prim2SF 0.005%float = S754_finite false 5764607523034235 (-60).
Proof. vm_compute. reflexivity. Qed.

Lemma band_lower :
  Prim2SF (-0.005)%float = S754_finite true 5764607523034235 (-60).
Proof. vm_compute. reflexivity. Qed.

(** No value is above the band and below it. *)
Lemma above_band_not_below d :
  (0.005 <? d)%float = true -> (d <? -0.005)%float = false.
Proof.
  intro H. rewrite ltb_spec in *. rewrite band_upper in H.
  rewrite band_lower.
  destruct (Prim2SF d) as [s|s| |s m e]; try destruct s;
    unfold SFltb, SFcompare in *; cbv beta iota in *;
    try discriminate; reflexivity.
Qed.

Lemma Classify_cases d :
  (Classify d = SHORTAGE <-> (d <? -0.005)%float = true) /\
  (Classify d = OVERAGE <-> (0.005 <? d)%float = true) /\
  (Classify d = BALANCED <->
   (d <? -0.005)%float = false /\ (0.005 <? d)%float = false).
Proof.
  pose proof (above_band_not_below d) as Hexcl. unfold Classify.
  destruct (d <? -0.005)%float, (0.005 <? d)%float;
    repeat split; try discriminate; auto;
    try (intros [? ?]; discriminate);
    intros; discriminate (Hexcl eq_refl).
Qed.

Lemma alert_shows_class r :
  alert_class (show_alert r) = Some (Classify (result_difference r)).
Proof.
  unfold show_alert, Classify.
  destruct (result_difference r <? -0.005)%float; [reflexivity|].
  destruct (0.005 <? result_difference r)%float; reflexivity.
Qed.

Lemma highlight_shows_class s :
  map style_class (highlight_difference s)
  = map (fun val => Some (Classify val)) s.
Proof.
  unfold highlight_difference. rewrite map_map.
  apply map_ext. intro val. unfold Classify.
  destruct (val <? -0.005)%float; [reflexivity|].
  destruct (0.005 <? val)%float; reflexivity.
Qed.

(** C2: the class is a function of the difference with three exclusive
    cases: below -0.005, above 0.005, and every other value, the two
    bounds included; the alert and the row highlighting both show the
    class that Classify gives, so they agree on every difference. *)
Theorem classification_partition (d : float) :
  (Classify d = SHORTAGE <-> (d <? -0.005)%float = true) /\
  (Classify d = OVERAGE <-> (0.005 <? d)%float = true) /\
  (Classify d = BALANCED <->
   (d <? -0.005)%float = false /\ (0.005 <? d)%float = false) /\
  Classify (-0.005) = BALANCED /\
  Classify 0.005 = BALANCED /\
  (forall pdv counted tef,
      alert_class (show_alert (mkresult pdv d counted tef))
      = Some (Classify d)) /\
  (forall s,
      map style_class (highlight_difference s)
      = map (fun val => Some (Classify val)) s) /\
  (forall pdv counted tef,
      [alert_class (show_alert (mkresult pdv d counted tef))]
      = map style_class (highlight_difference [d])).
Proof.
  destruct (Classify_cases d) as (H1 & H2 & H3).
  split; [exact H1|]. split; [exact H2|]. split; [exact H3|].
  split; [vm_compute; reflexivity|]. split; [vm_compute; reflexivity|].
  split; [intros; apply alert_shows_class|].
  split; [apply highlight_shows_class|].
  intros. now rewrite alert_shows_class, highlight_shows_class.
Qed.

(** The two scenarios of a create: 100.00 against 120.00 is a shortage
    of 20.00 at terminal 5, 50.00 against 50.00 is balanced. *)
Example create_scenarios :
  let submit (counted tef : float) :=
    mkinputs "5" "A" "B" "C" counted tef (mkdate 2025 3 1) (mkdate 2025 3 31)
             1 "" (Some audit_form_submit) a_morning false in
  map (fun i => (title i, result_difference (shown i),
                 Classify (result_difference (shown i))))
      (alerts_in (snd (interaction (submit 100%float 120%float) fresh_world)))
  = [("QUEBRA DE CAIXA NO PDV 5", (-20)%float, SHORTAGE)] /\
  map (fun i => (title i, result_difference (shown i),
                 Classify (result_difference (shown i))))
      (alerts_in (snd (interaction (submit 50%float 50%float) fresh_world)))
  = [("CAIXA FECHADO NO PDV 5", 0%float, BALANCED)].
Proof. split; vm_compute; reflexivity. Qed.

(* ================================================================= *)
(** ** The download and the table on the page *)

Lemma df_display_value rows :
  df_display rows = Returned (mkframe export_header (map export_cells rows)).
Proof.
  unfold df_display, select_columns, frame_of. cbn [columns values].
  change (column_indexes display_selection audits_columns)
    with (Some [0; 1; 2; 3; 4; 5; 6; 9; 8; 7]%nat).
  unfold rename. cbn [columns values]. do 2 f_equal.
  etransitivity; [apply List.map_map|]. apply map_ext. reflexivity.
Qed.

Lemma df_display_clean_value rows :
  df_display_clean rows
  = Returned (mkframe cols_to_display (map page_cells rows)).
Proof.
  unfold df_display_clean. rewrite df_display_value.
  unfold select_columns. cbn [columns values].
  change (column_indexes cols_to_display export_header)
    with (Some [0; 2; 1; 3; 4; 5; 6; 7; 8]%nat).
  do 2 apply f_equal.
  etransitivity; [apply List.map_map|]. apply map_ext. reflexivity.
Qed.

(** The separators of [format_currency_br], on what Python prints for
    1234.56. *)
Lemma format_currency_br_separators format_comma_2f val :
  is_nan val = false -> format_comma_2f val = "1,234.56" ->
  format_currency_br format_comma_2f val = "R$ 1.234,56".
Proof.
  intros Hnan Hfmt. unfold format_currency_br. now rewrite Hnan, Hfmt.
Qed.

(** C8 (as amended): the download is a function of the rows it is given
    and holds one sheet, Auditorias, with ten columns in the order ID,
    PDV, Data/Hora (BR), Operador(a), Fiscal, Auditor, Dinheiro Contado,
    TEF Contado, Diferença, Valor Esperado, every amount as the stored
    number.  The nine columns in the order ID, Data/Hora, PDV, ..., with
    the three amounts shown through [format_currency_br], are those of
    the table on the page, which the history shows above the button
    that carries the sheet. *)
Theorem export_sheet format_comma_2f rows :
  exists full,
    df_display rows = Returned full /\
    convert_df_to_excel full
    = [mksheet "Auditorias" export_header (map export_cells rows)] /\
    df_display_clean rows
    = Returned (mkframe cols_to_display (map page_cells rows)) /\
    displayed format_comma_2f currency_columns
              (mkframe cols_to_display (map page_cells rows))
    = map (fun r =>
             [None; None; None; None; None; None;
              Some (format_currency_br format_comma_2f (counted_value r));
              Some (format_currency_br format_comma_2f (tef_value r));
              Some (format_currency_br format_comma_2f (difference r))])
          rows /\
    match rows with
    | [] => history rows = Returned [info_no_audits_in_period]
    | _ :: _ =>
        history rows
        = Returned [dataframe (mkframe cols_to_display (map page_cells rows))
                              (highlight_difference (map difference rows))
                              currency_columns;
                    download_button (convert_df_to_excel full)]
    end.
Proof.
  eexists. split; [apply df_display_value|].
  split; [reflexivity|]. split; [apply df_display_clean_value|]. split.
  - unfold displayed. cbn [columns values].
    rewrite List.map_map. apply map_ext. reflexivity.
  - destruct rows as [|first rest]; [reflexivity|].
    unfold history. now rewrite df_display_value, df_display_clean_value.
Qed.

(** C8, the claim as written: the sheet of one audit has a tenth column,
    the terminal before the date, and a number where the claim has a
    formatted text. *)
Lemma export_is_not_the_page_table :
  exists full sh row,
    df_display (audits one_day_ledger) = Returned full /\
    convert_df_to_excel full = [sh] /\
    header sh <> cols_to_display /\
    List.length (header sh) = 10%nat /\
    nth 1 (header sh) "" = "PDV" /\
    nth 9 (header sh) "" = "Valor Esperado (R$)" /\
    nth 0 (body sh) [] = row /\
    nth 6 row (cell_text "") = cell_real 50 /\
    ~ exists claimed,
        convert_df_to_excel full = [claimed] /\
        header claimed = cols_to_display.
Proof.
  do 3 eexists. split; [apply df_display_value|].
  split; [reflexivity|].
  repeat split; try discriminate.
  intros (claimed & H & Hh). injection H as <-. discriminate Hh.
Qed.

(* ================================================================= *)
(** ** What a run of the page does to the table and to the slot *)

Lemma evolves_refl db : evolves db db.
Proof. split; [lia|auto]. Qed.

Lemma evolves_trans a b c : evolves a b -> evolves b c -> evolves a c.
Proof.
  intros [Hab Hb] [Hbc Hc]. split; [lia|].
  intros r Hr. destruct (Hc r Hr) as [Hin|[Hlt Hd]].
  - auto.
  - right. split; [lia|assumption].
Qed.

Lemma StronglySorted_app_one {A} (R : A -> A -> Prop) l r :
  StronglySorted R l -> Forall (fun x => R x r) l ->
  StronglySorted R (l ++ [r]).
Proof.
  induction 1 as [|a l Hs IH Ha]; intro Hr; simpl.
  - repeat constructor.
  - inversion Hr; subst. constructor; auto.
    apply Forall_app. split; auto.
Qed.

Lemma save_audit_evolves pdv operator supervisor prevention counted expected
      tef now db :
  evolves db (snd (save_audit pdv operator supervisor prevention counted
                              expected (counted - tef)%float tef now db)).
Proof.
  unfold evolves, save_audit, next_rowid; simpl. split; [lia|].
  intros r Hr. apply in_app_or in Hr. destruct Hr as [Hr|[<-|[]]]; auto.
  right. simpl. split; [lia|]. unfold difference_holds; simpl.
  apply sqlite_real_sub.
Qed.

Lemma save_audit_rowids pdv operator supervisor prevention counted expected
      diff tef now db :
  rowids_ok db ->
  rowids_ok (snd (save_audit pdv operator supervisor prevention counted
                             expected diff tef now db)).
Proof.
  intros [Hs Hle]. unfold rowids_ok, save_audit, next_rowid; simpl. split.
  - apply StronglySorted_app_one; auto.
    eapply Forall_impl; [|exact Hle]. unfold rowid_lt. simpl. intros; lia.
  - apply Forall_app. split.
    + eapply Forall_impl; [|exact Hle]. simpl. intros; lia.
    + repeat constructor. simpl. lia.
Qed.

Lemma delete_audit_by_id_evolves x db :
  evolves db (snd (delete_audit_by_id x db)).
Proof.
  unfold evolves. rewrite delete_audit_by_id_sequence. split; [lia|].
  intros r Hr. apply delete_audit_by_id_In in Hr. tauto.
Qed.

Lemma delete_audit_by_id_rowids x db :
  rowids_ok db -> rowids_ok (snd (delete_audit_by_id x db)).
Proof.
  intros [Hs Hle]. unfold rowids_ok.
  rewrite delete_audit_by_id_sequence. split.
  - unfold delete_audit_by_id. destruct (fits_int64 x); cbn [snd audits];
      [now apply StronglySorted_filter|assumption].
  - rewrite Forall_forall in *. intros r Hr.
    apply delete_audit_by_id_In in Hr. now apply Hle.
Qed.

Lemma delete_all_audits_evolves db : evolves db (snd (delete_all_audits db)).
Proof. unfold evolves, delete_all_audits; simpl. split; [lia|tauto]. Qed.

Lemma delete_all_audits_rowids db : rowids_ok (snd (delete_all_audits db)).
Proof. unfold rowids_ok, delete_all_audits; simpl. split; constructor. Qed.

(** The effect of each part of the script. *)

Lemma run_keeps_refl ok w : run_keeps ok w w.
Proof. split; [apply evolves_refl|auto]. Qed.

Lemma run_keeps_trans ok a b c :
  run_keeps ok a b -> run_keeps ok b c -> run_keeps ok a c.
Proof.
  intros (H1 & H2 & H3) (H4 & H5 & H6).
  split; [eapply evolves_trans; eauto|auto].
Qed.

Lemma run_keeps_weaken ok ok' a b :
  (ok' = true -> ok = true) -> run_keeps ok a b -> run_keeps ok' a b.
Proof.
  intros Hok (H1 & H2 & H3). split; [exact H1|]. split; [exact H2|].
  intros H. apply H3. now apply Hok.
Qed.

Lemma alert_section_effect w :
  let (w1, out1) := alert_section w in
  store w1 = store w /\ audit_result (session w1) = None /\
  alerts_in out1 = pending_alert w.
Proof.
  unfold alert_section, pending_alert.
  destruct (audit_result (session w)) eqn:E; simpl; auto.
Qed.

Lemma audit_form_creates i w :
  creates i = true ->
  audit_form i w
  = (let saved := save_audit (pdv_select i) (operator_select i)
                    (supervisor_select i) (prevention_select i)
                    (counted_input i) 0%float
                    (counted_input i - tef_input i)%float (tef_input i)
                    (clock i) (store w) in
     (mkworld (snd saved)
              (mksession (fst saved) (Some (created_result i))),
      [balloons], true)).
Proof.
  unfold creates, audit_form. intro H.
  apply andb_true_iff in H. destruct H as [H Hraise].
  apply andb_true_iff in H. destruct H as [Hclick Hnames].
  rewrite Hclick. apply negb_true_iff in Hnames, Hraise.
  rewrite Hnames, Hraise. reflexivity.
Qed.

Lemma audit_form_skips i w :
  creates i = false ->
  exists out2, audit_form i w = (w, out2, false) /\ alerts_in out2 = [].
Proof.
  unfold creates, audit_form.
  destruct (is_clicked audit_form_submit i); [|eauto].
  destruct ((operator_select i =? placeholder)%string
            || (supervisor_select i =? placeholder)%string
            || (prevention_select i =? placeholder)%string); [eauto|].
  destruct (insert_raises i); [eauto|discriminate].
Qed.

Lemma audit_form_effect i w :
  let '(w2, out2, again) := audit_form i w in
  run_keeps (clock_ok (clock i)) w w2 /\
  alerts_in out2 = [] /\ again = creates i /\
  audit_result (session w2)
  = (if creates i then Some (created_result i) else audit_result (session w)).
Proof.
  destruct (creates i) eqn:E.
  - rewrite (audit_form_creates i w E). cbv zeta.
    split; [|auto]. split; [|split]; cbn [store].
    + apply save_audit_evolves.
    + apply save_audit_rowids.
    + intros. now apply save_audit_timestamps.
  - destruct (audit_form_skips i w E) as (out2 & -> & Hout).
    split; [apply run_keeps_refl|auto].
Qed.

Lemma history_effect df_audits out3 :
  history df_audits = Returned out3 -> alerts_in out3 = [].
Proof.
  unfold history. destruct df_audits as [|r rows].
  - intro H. inversion H. reflexivity.
  - rewrite df_display_value, df_display_clean_value.
    intro H. inversion H. reflexivity.
Qed.

Lemma form_delete_id_effect i df_audits w :
  let '(w3, out4, again) := form_delete_id i df_audits w in
  run_keeps (clock_ok (clock i)) w w3 /\
  alerts_in out4 = [] /\ session w3 = session w.
Proof.
  pose proof (run_keeps_refl (clock_ok (clock i)) w) as Hrefl.
  assert (Hdel : run_keeps (clock_ok (clock i)) w
            (mkworld (snd (delete_audit_by_id (input_delete_id i) (store w)))
                     (session w))).
  { split; [|split]; cbn [store].
    - apply delete_audit_by_id_evolves.
    - apply delete_audit_by_id_rowids.
    - intros _. apply delete_audit_by_id_timestamps. }
  unfold form_delete_id.
  destruct (is_clicked form_delete_id_submit i); [|auto].
  destruct df_audits as [|r rows]; [auto|].
  destruct (existsb _ _); [|auto].
  destruct (delete_audit_by_id (input_delete_id i) (store w))
    as [[deleted_count|e] db]; cbn [snd] in Hdel; [|auto].
  destruct (0 <? deleted_count); auto.
Qed.

Lemma form_delete_all_effect i w :
  let '(w4, out5, again) := form_delete_all i w in
  run_keeps (clock_ok (clock i)) w w4 /\ alerts_in out5 = [] /\
  audit_result (session w4) = audit_result (session w).
Proof.
  pose proof (run_keeps_refl (clock_ok (clock i)) w) as Hrefl.
  unfold form_delete_all, submit_delete_all.
  destruct (is_clicked form_delete_all_submit i); [|auto].
  destruct (admin_password i =? ADMIN_PASSWORD)%string; [|auto].
  unfold delete_all_audits.
  split; [|auto]. split; [|split]; cbn [store].
  - apply (delete_all_audits_evolves (store w)).
  - intros _. apply (delete_all_audits_rowids (store w)).
  - reflexivity.
Qed.

Lemma alerts_in_app a b : alerts_in (a ++ b) = (alerts_in a ++ alerts_in b)%list.
Proof. unfold alerts_in. apply flat_map_app. Qed.

Lemma app_main_effect i w :
  let '(w', out, e) := app_main i w in
  run_keeps (clock_ok (clock i)) w w' /\
  alerts_in out = pending_alert w /\
  audit_result (session w')
  = (if creates i then Some (created_result i) else None) /\
  (if creates i then e = rerun else True).
Proof.
  unfold app_main.
  pose proof (alert_section_effect w) as H1.
  destruct (alert_section w) as [w1 out1]. destruct H1 as (Hst & Hnone & Hal).
  assert (Hk1 : run_keeps (clock_ok (clock i)) w w1)
    by (unfold run_keeps; rewrite Hst; apply run_keeps_refl).
  pose proof (audit_form_effect i w1) as H2.
  destruct (audit_form i w1) as [[w2 out2] again].
  destruct H2 as (Hk2 & Hal2 & Hagain & Hslot).
  rewrite Hnone in Hslot.
  assert (Hk : run_keeps (clock_ok (clock i)) w w2)
    by (eapply run_keeps_trans; eauto).
  assert (Halerts : alerts_in (out1 ++ out2) = pending_alert w)
    by (now rewrite alerts_in_app, Hal, Hal2, app_nil_r).
  destruct again.
  - rewrite <- Hagain in *. auto.
  - rewrite <- Hagain in *.
    destruct (load_audits_filtered _ _ (store w2)) as [df_audits|e]; [|auto].
    destruct (history df_audits) as [out3|e] eqn:Eh; [|auto].
    apply history_effect in Eh.
    pose proof (form_delete_id_effect i df_audits w2) as H3.
    destruct (form_delete_id i df_audits w2) as [[w3 out4] again3].
    destruct H3 as (Hk3 & Hal3 & Hs3).
    assert (Hal4 : alerts_in (out1 ++ out2 ++ out3 ++ out4) = pending_alert w).
    { rewrite app_assoc, alerts_in_app, Halerts, alerts_in_app, Eh, Hal3.
      now rewrite app_nil_r. }
    destruct again3 as [| |e3].
    + pose proof (form_delete_all_effect i w3) as H4.
      destruct (form_delete_all i w3) as [[w4 out5] again4].
      destruct H4 as (Hk4 & Hal5 & Hs4).
      split; [eapply run_keeps_trans; [|exact Hk4];
              eapply run_keeps_trans; eauto|].
      split; [|split; [now rewrite Hs4, Hs3|exact I]].
      rewrite !app_assoc, alerts_in_app, Hal5, app_nil_r.
      now rewrite <- !app_assoc.
    + split; [eapply run_keeps_trans; eauto|].
      split; [exact Hal4|]. split; [now rewrite Hs3|exact I].
    + split; [eapply run_keeps_trans; eauto|].
      split; [exact Hal4|]. split; [now rewrite Hs3|exact I].
Qed.

Lemma creates_no_click i : creates (no_click i) = false.
Proof. reflexivity. Qed.

Lemma interaction_effect i w :
  audit_result (session w) = None ->
  let (w', out) := interaction i w in
  run_keeps (clock_ok (clock i)) w w' /\
  audit_result (session w') = None /\
  alerts_in out
  = (if creates i then [show_alert (created_result i)] else []).
Proof.
  intro Hnone. unfold interaction.
  pose proof (app_main_effect i w) as H1.
  destruct (app_main i w) as [[w1 out1] e1].
  destruct H1 as (Hk1 & Hal1 & Hs1 & He1).
  unfold pending_alert in Hal1. rewrite Hnone in Hal1.
  pose proof (app_main_effect (no_click i) w1) as H2.
  destruct (app_main (no_click i) w1) as [[w2 out2] e2].
  destruct H2 as (Hk2 & Hal2 & Hs2 & _).
  change (clock (no_click i)) with (clock i) in Hk2.
  rewrite creates_no_click in Hs2.
  unfold pending_alert in Hal2. rewrite Hs1 in Hal2.
  destruct (creates i).
  - subst e1. split; [eapply run_keeps_trans; eauto|].
    split; [exact Hs2|]. now rewrite alerts_in_app, Hal1, Hal2.
  - destruct e1.
    + auto.
    + split; [eapply run_keeps_trans; eauto|].
      split; [exact Hs2|]. now rewrite alerts_in_app, Hal1, Hal2.
    + auto.
Qed.

Lemma after_effect trace w :
  audit_result (session w) = None ->
  run_keeps (forallb (fun i => clock_ok (clock i)) trace) w (after trace w) /\
  audit_result (session (after trace w)) = None.
Proof.
  revert w. induction trace as [|i trace IH]; intros w Hnone.
  - split; [apply run_keeps_refl|exact Hnone].
  - change (after (i :: trace) w) with (after trace (fst (interaction i w))).
    pose proof (interaction_effect i w Hnone) as H.
    destruct (interaction i w) as [w1 out]. destruct H as (Hk & Hs & _).
    destruct (IH w1 Hs) as [Hk' Hs'].
    split; [|exact Hs']. cbn [forallb fst] in *.
    apply (run_keeps_trans _ w w1).
    + apply (run_keeps_weaken (clock_ok (clock i))); [|exact Hk].
      intro H. apply andb_true_iff in H. tauto.
    + apply (run_keeps_weaken (forallb (fun i => clock_ok (clock i)) trace));
        [|exact Hk'].
      intro H. apply andb_true_iff in H. tauto.
Qed.

Lemma fresh_world_rowids : rowids_ok (store fresh_world).
Proof. split; constructor. Qed.

Lemma rowid_unique rows a b :
  StronglySorted rowid_lt rows -> In a rows -> In b rows ->
  id a = id b -> a = b.
Proof.
  induction 1 as [|x rows Hs IH Hx]; intros Ha Hb Hid; [contradiction|].
  rewrite Forall_forall in Hx. unfold rowid_lt in Hx.
  destruct Ha as [<-|Ha], Hb as [<-|Hb]; auto.
  - specialize (Hx b Hb). lia.
  - specialize (Hx a Ha). lia.
Qed.

Lemma rowids_NoDup rows :
  StronglySorted rowid_lt rows -> NoDup (map id rows).
Proof.
  induction 1 as [|x rows Hs IH Hx]; simpl; constructor; auto.
  rewrite Forall_forall in Hx. unfold rowid_lt in Hx.
  intro Hin. apply in_map_iff in Hin. destruct Hin as (y & Hid & Hy).
  specialize (Hx y Hy). lia.
Qed.

(** The tables the page can reach are those the query and the deletion
    are stated for: rowids ascending and distinct, timestamps as
    [save_audit] writes them, whenever the clock reads a four-digit
    year. *)
Lemma reachable_ledger trace :
  forallb (fun i => clock_ok (clock i)) trace = true ->
  let db := store (after trace fresh_world) in
  StronglySorted rowid_lt (audits db) /\
  NoDup (map id (audits db)) /\
  stamps_ok db = true.
Proof.
  intros Hclock db.
  destruct (after_effect trace fresh_world eq_refl)
    as [(_ & Hrow & Hstamp) _].
  destruct (Hrow fresh_world_rowids) as [Hsorted _].
  fold db in Hsorted. split; [exact Hsorted|].
  split; [now apply rowids_NoDup|].
  now apply Hstamp.
Qed.

Lemma alerts_along_effect trace w :
  audit_result (session w) = None ->
  alerts_along trace w
  = flat_map (fun i => if creates i then [show_alert (created_result i)]
                       else []) trace.
Proof.
  revert w. induction trace as [|i trace IH]; intros w Hnone; [reflexivity|].
  cbn [alerts_along flat_map].
  pose proof (interaction_effect i w Hnone) as H.
  destruct (interaction i w) as [w1 out]. destruct H as (_ & Hs & Hal).
  cbn [fst snd]. now rewrite Hal, (IH w1 Hs).
Qed.

(** C9: the slot holds at most the result of the create of the run in
    progress.  Every run shows the pending result, if there is one, once
    at its top and leaves the slot empty unless it creates an audit
    itself, and then it asks for the run that shows that result; so
    every interaction ends with the slot empty, having shown the alert of
    its own create once and no other, and the alerts shown over any
    sequence of interactions are those of its creates, one each. *)
Theorem one_shot_alert :
  (forall i w,
      let '(w', out, e) := app_main i w in
      alerts_in out = pending_alert w /\
      audit_result (session w')
      = (if creates i then Some (created_result i) else None) /\
      (if creates i then e = rerun else True)) /\
  (forall i trace,
      let w := after trace fresh_world in
      let (w', out) := interaction i w in
      audit_result (session w) = None /\
      audit_result (session w') = None /\
      alerts_in out
      = (if creates i then [show_alert (created_result i)] else [])) /\
  (forall trace,
      alerts_along trace fresh_world
      = flat_map (fun i => if creates i then [show_alert (created_result i)]
                           else []) trace).
Proof.
  split; [|split].
  - intros i w. pose proof (app_main_effect i w) as H.
    destruct (app_main i w) as [[w' out] e]. tauto.
  - intros i trace w.
    destruct (after_effect trace fresh_world eq_refl) as [_ Hnone].
    fold w in Hnone.
    pose proof (interaction_effect i w Hnone) as H.
    destruct (interaction i w) as [w' out]. tauto.
  - intros trace. now apply alerts_along_effect.
Qed.

Lemma app_main_no_click_store i w :
  store (fst (fst (app_main (no_click i) w))) = store w.
Proof.
  unfold app_main.
  pose proof (alert_section_effect w) as H1.
  destruct (alert_section w) as [w1 out1]. destruct H1 as (Hst & _).
  unfold audit_form, form_delete_id, form_delete_all.
  cbn [is_clicked no_click clicked].
  destruct (load_audits_filtered _ _ (store w1)); [|exact Hst].
  destruct (history a); exact Hst.
Qed.

Lemma app_main_creates_store i w :
  creates i = true ->
  store (fst (fst (app_main i w)))
  = snd (save_audit (pdv_select i) (operator_select i)
           (supervisor_select i) (prevention_select i)
           (counted_input i) 0%float
           (counted_input i - tef_input i)%float (tef_input i)
           (clock i) (store w)).
Proof.
  intro Hc. unfold app_main.
  pose proof (alert_section_effect w) as H1.
  destruct (alert_section w) as [w1 out1]. destruct H1 as (Hst & _).
  rewrite (audit_form_creates i w1 Hc). cbv zeta. cbn [fst store].
  now rewrite Hst.
Qed.

Lemma interaction_creates_store i w :
  creates i = true ->
  store (fst (interaction i w))
  = snd (save_audit (pdv_select i) (operator_select i)
           (supervisor_select i) (prevention_select i)
           (counted_input i) 0%float
           (counted_input i - tef_input i)%float (tef_input i)
           (clock i) (store w)).
Proof.
  intro Hc. unfold interaction.
  pose proof (app_main_creates_store i w Hc) as Hstore.
  pose proof (app_main_effect i w) as H1.
  destruct (app_main i w) as [[w1 out1] e1].
  destruct H1 as (_ & _ & _ & He). rewrite Hc in He. subst e1.
  pose proof (app_main_no_click_store i w1) as H2.
  destruct (app_main (no_click i) w1) as [[w2 out2] e2].
  cbn [fst] in *. now rewrite H2.
Qed.

(** C1: in every state the page can reach, each stored record has
    difference = counted_value - tef_value; the create operation writes
    the record with that difference, computed from the two amounts
    entered and stored with them as the REAL columns keep them; and
    whatever is done afterwards, a record found under the same id is
    the same record, field by field. *)
Theorem ledger_difference_rule (trace : list inputs) :
  let w := after trace fresh_world in
  Forall difference_holds (audits (store w)) /\
  (forall i,
      if creates i
      then exists r,
          audits (store (fst (interaction i w))) = (audits (store w) ++ [r])%list /\
          stored_real (counted_input i) (counted_value r) /\
          stored_real (tef_input i) (tef_value r) /\
          stored_real (counted_input i - tef_input i) (difference r) /\
          difference r = (counted_value r - tef_value r)%float
      else True) /\
  (forall more r r',
      In r (audits (store w)) ->
      In r' (audits (store (after more w))) ->
      id r' = id r -> r' = r).
Proof.
  intro w.
  destruct (after_effect trace fresh_world eq_refl)
    as [(Hev & Hrow & _) Hnone].
  fold w in Hev, Hrow, Hnone.
  specialize (Hrow fresh_world_rowids). destruct Hev as [_ Hev].
  split; [|split].
  - apply Forall_forall. intros r Hr.
    destruct (Hev r Hr) as [[]|[_ Hd]]. exact Hd.
  - intro i. destruct (creates i) eqn:Hc; [|exact I].
    rewrite (interaction_creates_store i w Hc).
    eexists. split; [reflexivity|].
    cbn [counted_value tef_value difference].
    split; [apply stored_real_sqlite_real|].
    split; [apply stored_real_sqlite_real|].
    split; [apply stored_real_sqlite_real|apply sqlite_real_sub].
  - intros more r r' Hr Hr' Hid.
    destruct (after_effect more w Hnone) as [[[_ Hmore] _] _].
    destruct Hrow as [Hsorted Hle].
    rewrite Forall_forall in Hle. specialize (Hle r Hr).
    destruct (Hmore r' Hr') as [Hin|[Hlt _]]; [|lia].
    now apply (rowid_unique (audits (store w))).
Qed.

(* ================================================================= *)
(** ** More on the query *)

Lemma string_ltb_asym (a b : string) :
  (a <? b)%string = true -> (b <? a)%string = false.
Proof.
  unfold String.ltb. rewrite (String.compare_antisym a b).
  now destruct (String.compare b a).
Qed.

Lemma insert_desc_not_older r l :
  StronglySorted not_older l -> StronglySorted not_older (insert_desc r l).
Proof.
  induction l as [|x l IH]; intro Hs; simpl.
  - repeat constructor.
  - apply StronglySorted_inv in Hs. destruct Hs as [Hs Hx].
    destruct (audit_datetime r <? audit_datetime x)%string eqn:E.
    + constructor; auto. rewrite insert_desc_perm. constructor; auto.
      now apply string_ltb_asym.
    + constructor; [constructor; auto|].
      constructor; [exact E|].
      rewrite Forall_forall in *. intros y Hy. specialize (Hx y Hy).
      unfold not_older in *.
      destruct (audit_datetime r <? audit_datetime y)%string eqn:Ey; auto.
      now rewrite (string_lt_le_trans _ _ _ Ey Hx) in E.
Qed.

Lemma order_by_not_older l :
  StronglySorted not_older (order_by_audit_datetime_desc l).
Proof.
  induction l as [|r l IH]; simpl; [constructor|].
  now apply insert_desc_not_older.
Qed.

(** Leaving rows out before the sort or after it gives the same list. *)
Lemma filter_insert_desc f r l :
  StronglySorted not_older l ->
  filter f (insert_desc r l)
  = if f r then insert_desc r (filter f l) else filter f l.
Proof.
  induction l as [|x l IH]; intro Hs; simpl.
  - now destruct (f r).
  - apply StronglySorted_inv in Hs. destruct Hs as [Hs Hx].
    destruct (audit_datetime r <? audit_datetime x)%string eqn:E; simpl.
    + rewrite (IH Hs). destruct (f x), (f r); simpl; now rewrite ?E.
    + destruct (f r) eqn:Er, (f x) eqn:Ex; simpl; rewrite ?E; auto.
      clear IH. induction l as [|y l IHl]; simpl; auto.
      inversion Hx as [|? ? Hxy Hxl]; subst.
      apply StronglySorted_inv in Hs. destruct Hs as [Hs Hy].
      destruct (f y); simpl.
      * unfold not_older in Hxy.
        destruct (audit_datetime r <? audit_datetime y)%string eqn:Ey; auto.
        now rewrite (string_lt_le_trans _ _ _ Ey Hxy) in E.
      * now apply IHl.
Qed.

Lemma filter_order_by f l :
  filter f (order_by_audit_datetime_desc l)
  = order_by_audit_datetime_desc (filter f l).
Proof.
  induction l as [|r l IH]; simpl; auto.
  rewrite filter_insert_desc by apply order_by_not_older.
  destruct (f r); simpl; now rewrite IH.
Qed.

Lemma filter_comm {A} (f g : A -> bool) l :
  filter f (filter g l) = filter g (filter f l).
Proof.
  induction l as [|a l IH]; simpl; auto.
  destruct (f a) eqn:Ef, (g a) eqn:Eg; simpl; rewrite ?Ef, ?Eg, IH; auto.
Qed.

Lemma read_sql_query_after_delete conditions x db :
  fits_int64 x = true ->
  read_sql_query conditions (snd (delete_audit_by_id x db))
  = filter (fun r => negb (id r =? x)) (read_sql_query conditions db).
Proof.
  intro Hfit. rewrite delete_audit_by_id_fits by assumption.
  unfold read_sql_query, where_all; cbn [snd audits].
  now rewrite filter_order_by, filter_comm.
Qed.

Lemma StronglySorted_impl_in {A} (R R' : A -> A -> Prop) l :
  (forall a b, In a l -> In b l -> R a b -> R' a b) ->
  StronglySorted R l -> StronglySorted R' l.
Proof.
  intros Himp Hs. induction Hs as [|a l Hs IH Ha]; constructor.
  - apply IH. intros; apply Himp; simpl; auto.
  - rewrite Forall_forall in *. intros b Hb.
    apply Himp; simpl; auto.
Qed.

Lemma not_older_civil a b :
  timestamp_ok a = true -> timestamp_ok b = true ->
  not_older a b -> newer_or_same a b.
Proof.
  intros Ha Hb Hab.
  destruct (timestamp_ok_inv a Ha) as (ta & Hca & Hta & Hsa).
  destruct (timestamp_ok_inv b Hb) as (tb & Hcb & Htb & Hsb).
  exists ta, tb. repeat split; auto.
  unfold not_older, String.ltb in Hab. rewrite Hsa, Hsb in Hab.
  rewrite strftime_YmdHMS_compare in Hab by assumption.
  unfold datetime_leb. rewrite datetime_compare_antisym.
  now destruct (datetime_compare ta tb).
Qed.

Lemma load_audits_filtered_cases start_date end_date db out :
  load_audits_filtered start_date end_date db = Returned out ->
  exists conditions, out = read_sql_query conditions db.
Proof.
  unfold load_audits_filtered.
  destruct end_date as [e|]; [destruct (add_one_day e)|];
    intro H; inversion H; eauto.
Qed.

(** X1: the sequence a query returns runs back in time on the calendar: the
    order of the TEXT column is the order of the civil timestamps. *)
Theorem query_is_chronological db start_date end_date out :
  stamps_ok db = true ->
  load_audits_filtered start_date end_date db = Returned out ->
  StronglySorted newer_or_same out.
Proof.
  intros Hstamps Hout.
  destruct (load_audits_filtered_cases _ _ _ _ Hout) as [conditions ->].
  apply (StronglySorted_impl_in not_older);
    [|apply order_by_not_older].
  unfold stamps_ok in Hstamps. rewrite forallb_forall in Hstamps.
  intros a b Ha Hb. apply not_older_civil; apply Hstamps.
  - now apply (read_sql_query_In conditions).
  - now apply (read_sql_query_In conditions).
Qed.

Lemma query_is_chronological_witness :
  StronglySorted newer_or_same
    (order_by_audit_datetime_desc (audits two_day_ledger)).
Proof.
  apply (query_is_chronological two_day_ledger None None);
    vm_compute; reflexivity.
Defined.

(** X2: deleting a record takes its row out of every query result and
    leaves the other rows where they were, in the same order; a query
    that fails keeps failing; and when the delete itself is refused, for
    an id outside 64 bits, every query is as it was. *)
Theorem query_after_delete x start_date end_date db :
  load_audits_filtered start_date end_date (snd (delete_audit_by_id x db))
  = match fst (delete_audit_by_id x db),
          load_audits_filtered start_date end_date db with
    | Returned _, Returned out =>
        Returned (filter (fun r => negb (id r =? x)) out)
    | _, result => result
    end.
Proof.
  destruct (fits_int64 x) eqn:Hfit.
  - rewrite (delete_audit_by_id_fits x db Hfit) at 2. cbn [fst].
    unfold load_audits_filtered.
    destruct end_date as [e|]; [destruct (add_one_day e)|];
      try reflexivity; now rewrite read_sql_query_after_delete.
  - rewrite (delete_audit_by_id_overflow x db Hfit). reflexivity.
Qed.

Lemma where_ge_civil start rows :
  forallb timestamp_ok rows = true -> filter_date_ok start = true ->
  where_all [audit_datetime_ge (strftime_midnight start)] rows
  = filter (on_or_after start) rows.
Proof.
  intros Hrows Hs. unfold where_all. apply filter_ext_in. intros r Hr.
  rewrite forallb_forall in Hrows.
  destruct (timestamp_ok_inv r (Hrows r Hr)) as (t & Hc & Ht & Hts).
  unfold on_or_after. rewrite Hc. simpl. rewrite Hts, andb_true_r.
  now apply condition_ge_civil.
Qed.

Lemma where_lt_civil e next rows :
  forallb timestamp_ok rows = true -> filter_date_ok e = true ->
  add_one_day e = Some next ->
  where_all [audit_datetime_lt (strftime_midnight next)] rows
  = filter (on_or_before e) rows.
Proof.
  intros Hrows He Hn. unfold where_all. apply filter_ext_in. intros r Hr.
  rewrite forallb_forall in Hrows.
  destruct (timestamp_ok_inv r (Hrows r Hr)) as (t & Hc & Ht & Hts).
  unfold on_or_before. rewrite Hc. simpl. rewrite Hts, andb_true_r.
  now apply (condition_lt_civil e next).
Qed.

(** X3: each bound of the query is optional.  With none, every row of
    any table comes back.  On a table whose timestamps [save_audit]
    wrote and for a date with a four-digit year: with a start date only,
    the rows from start 00:00:00 on come back, also for the last date
    there is; with an end date only, one before 9999-12-31, the rows up
    to end 23:59:59. *)
Theorem query_optional_bounds db d :
  (exists out,
      load_audits_filtered None None db = Returned out /\
      Permutation out (audits db)) /\
  (stamps_ok db = true -> filter_date_ok d = true ->
   exists out,
      load_audits_filtered (Some d) None db = Returned out /\
      Permutation out (filter (on_or_after d) (audits db))) /\
  (stamps_ok db = true -> filter_date_ok d = true ->
   d <> mkdate 9999 12 31 ->
   exists out,
      load_audits_filtered None (Some d) db = Returned out /\
      Permutation out (filter (on_or_before d) (audits db))).
Proof.
  unfold stamps_ok, load_audits_filtered. split; [|split].
  - eexists. split; [reflexivity|]. rewrite read_sql_query_perm.
    unfold where_all. cbn [forallb]. now rewrite filter_all.
  - intros Hstamps Hd. eexists. split; [reflexivity|].
    rewrite read_sql_query_perm. now rewrite where_ge_civil.
  - intros Hstamps Hd Hmax.
    destruct (add_one_day_Some d (filter_date_ok_date_ok _ Hd) Hmax)
      as [next Hn].
    rewrite Hn. cbn [app]. eexists. split; [reflexivity|].
    rewrite read_sql_query_perm. now rewrite (where_lt_civil d next).
Qed.

Lemma query_optional_bounds_witness :
  (exists out,
      load_audits_filtered None None two_day_ledger = Returned out /\
      Permutation out (audits two_day_ledger)) /\
  (exists out,
      load_audits_filtered (Some (mkdate 2025 3 10)) None two_day_ledger
      = Returned out /\
      Permutation out
        (filter (on_or_after (mkdate 2025 3 10)) (audits two_day_ledger))) /\
  (exists out,
      load_audits_filtered None (Some (mkdate 2025 3 10)) two_day_ledger
      = Returned out /\
      Permutation out
        (filter (on_or_before (mkdate 2025 3 10)) (audits two_day_ledger))).
Proof.
  destruct (query_optional_bounds two_day_ledger (mkdate 2025 3 10))
    as (Hnone & Hstart & Hend).
  split; [exact Hnone|]. split.
  - apply Hstart; vm_compute; reflexivity.
  - apply Hend; [vm_compute; reflexivity|reflexivity|discriminate].
Defined.

Lemma day_in_range start end_ t :
  clock_ok t = true ->
  date_compare start (dt_date t) <> Gt ->
  date_compare (dt_date t) end_ <> Gt ->
  datetime_leb (midnight start) t && datetime_leb t (last_second end_) = true.
Proof.
  intros Ht Hs He. apply clock_ok_bounds in Ht.
  destruct Ht as (_ & _ & Hh & Hm & Hsec).
  unfold datetime_leb, datetime_compare, midnight, last_second;
    cbn [dt_date hour minute second].
  destruct (date_compare start (dt_date t)); try contradiction;
    destruct (date_compare (dt_date t) end_); try contradiction;
    cbn [lex andb]; try reflexivity; unfold lex.
  all: destruct (N.compare_spec 0 (hour t)), (N.compare_spec 0 (minute t)),
         (N.compare_spec 0 (second t)), (N.compare_spec (hour t) 23),
         (N.compare_spec (minute t) 59), (N.compare_spec (second t) 59);
       try reflexivity; lia.
Qed.

(** X4: an audit that was saved is found again.  When the clock and the
    two dates of the filter have four-digit years and the end date is
    before 9999-12-31, every query whose range of days contains the civil
    day of the save returns, whatever else the table holds, a row with
    the new id, the timestamp of the save, the names passed and the
    amounts passed as the REAL columns keep them. *)
Theorem saved_audit_is_found
    pdv operator supervisor prevention counted expected diff tef
    now db start end_ :
  clock_ok now = true ->
  filter_date_ok start = true -> filter_date_ok end_ = true ->
  end_ <> mkdate 9999 12 31 ->
  date_compare start (dt_date now) <> Gt ->
  date_compare (dt_date now) end_ <> Gt ->
  let (new_id, db') :=
    save_audit pdv operator supervisor prevention counted expected diff tef
               now db in
  exists out,
    load_audits_filtered (Some start) (Some end_) db' = Returned out /\
    In (mkaudit new_id pdv (strftime_YmdHMS now) operator supervisor
                prevention (sqlite_real counted) (sqlite_real expected)
                (sqlite_real diff) (sqlite_real tef)) out.
Proof.
  intros Hnow Hs He Hmax Hlo Hhi.
  unfold save_audit.
  destruct (add_one_day_Some end_ (filter_date_ok_date_ok _ He) Hmax)
    as [next Hn].
  unfold load_audits_filtered. rewrite Hn. cbn [app].
  eexists. split; [reflexivity|].
  apply (Permutation_in _ (Permutation_sym (read_sql_query_perm _ _))).
  cbn [audits]. unfold where_all.
  apply filter_In. split.
  - apply in_or_app. right. now left.
  - cbn [forallb holds audit_datetime].
    rewrite condition_ge_civil, (condition_lt_civil end_ next)
      by assumption.
    rewrite andb_true_r. now apply day_in_range.
Qed.

Lemma saved_audit_is_found_witness :
  let (new_id, db') :=
    save_audit "7" "D" "E" "F" 10 0 (10 - 5) 5 an_evening one_day_ledger in
  exists out,
    load_audits_filtered (Some (mkdate 2025 3 10)) (Some (mkdate 2025 3 10))
                         db' = Returned out /\
    In (mkaudit new_id "7" (strftime_YmdHMS an_evening) "D" "E" "F"
                (sqlite_real 10) (sqlite_real 0) (sqlite_real (10 - 5))
                (sqlite_real 5)) out.
Proof.
  apply (saved_audit_is_found "7" "D" "E" "F" 10 0 (10 - 5) 5 an_evening
           one_day_ledger (mkdate 2025 3 10) (mkdate 2025 3 10));
    try (vm_compute; reflexivity); try discriminate;
    vm_compute; discriminate.
Defined.

(* ================================================================= *)
(** ** More on the runs of the page *)

Lemma app_main_no_click i w :
  fst (fst (app_main (no_click i) w)) = fst (alert_section w).
Proof.
  unfold app_main. destruct (alert_section w) as [w1 out1].
  unfold audit_form, form_delete_id, form_delete_all.
  cbn [is_clicked no_click clicked].
  destruct (load_audits_filtered _ _ (store w1)) as [df|e]; [|reflexivity].
  destruct (history df); reflexivity.
Qed.

Lemma alert_section_world w :
  fst (alert_section w)
  = mkworld (store w) (mksession (last_audit_id (session w)) None).
Proof.
  unfold alert_section. destruct w as [db [n [r|]]]; reflexivity.
Qed.

Lemma save_audit_value pdv operator supervisor prevention counted expected
      diff tef now db :
  save_audit pdv operator supervisor prevention counted expected diff tef
             now db
  = (next_rowid db,
     mkdb (audits db ++
           [mkaudit (next_rowid db) pdv (strftime_YmdHMS now) operator
                    supervisor prevention (sqlite_real counted)
                    (sqlite_real expected) (sqlite_real diff)
                    (sqlite_real tef)])
          (next_rowid db)).
Proof. reflexivity. Qed.

(** A run that creates an audit, and the interaction around it. *)
Lemma app_main_creates i w :
  creates i = true ->
  exists out,
    app_main i w
    = (mkworld (mkdb (audits (store w) ++ [created_row i (store w)])
                     (next_rowid (store w)))
               (mksession (next_rowid (store w)) (Some (created_result i))),
       out, rerun) /\
    alerts_in out = pending_alert w.
Proof.
  intro Hc. unfold app_main.
  pose proof (alert_section_effect w) as H1.
  destruct (alert_section w) as [w1 out1]. destruct H1 as (Hst & _ & Hal).
  rewrite (audit_form_creates i w1 Hc). cbv zeta.
  rewrite save_audit_value, Hst. cbn [fst snd].
  eexists. split; [reflexivity|].
  now rewrite alerts_in_app, Hal, app_nil_r.
Qed.

Lemma interaction_creates i w :
  creates i = true ->
  exists out,
    interaction i w
    = (mkworld (mkdb (audits (store w) ++ [created_row i (store w)])
                     (next_rowid (store w)))
               (mksession (next_rowid (store w)) None),
       out) /\
    alerts_in out
    = (pending_alert w ++ [show_alert (created_result i)])%list.
Proof.
  intro Hc. unfold interaction.
  destruct (app_main_creates i w Hc) as (out1 & -> & Hal1).
  pose proof (app_main_no_click i
                (mkworld (mkdb (audits (store w) ++ [created_row i (store w)])
                               (next_rowid (store w)))
                         (mksession (next_rowid (store w))
                                    (Some (created_result i))))) as Hw.
  pose proof (app_main_effect (no_click i)
                (mkworld (mkdb (audits (store w) ++ [created_row i (store w)])
                               (next_rowid (store w)))
                         (mksession (next_rowid (store w))
                                    (Some (created_result i))))) as He.
  destruct (app_main (no_click i) _) as [[w2 out2] e2].
  destruct He as (_ & Hal2 & _). cbn [fst] in Hw. subst w2.
  eexists. split; [reflexivity|].
  now rewrite alerts_in_app, Hal1, Hal2.
Qed.

(** A run that creates none changes the table by one deletion at most. *)
Lemma app_main_skips_store i w :
  creates i = false ->
  store (fst (fst (app_main i w))) = store w \/
  store (fst (fst (app_main i w)))
  = snd (delete_audit_by_id (input_delete_id i) (store w)) \/
  store (fst (fst (app_main i w))) = snd (delete_all_audits (store w)).
Proof.
  intro Hc. unfold app_main.
  pose proof (alert_section_effect w) as H1.
  destruct (alert_section w) as [w1 out1]. destruct H1 as (Hst & _).
  destruct (audit_form_skips i w1 Hc) as (out2 & -> & _).
  destruct (load_audits_filtered _ _ (store w1)) as [df|e]; [|now left].
  destruct (history df) as [out3|e]; [|now left].
  unfold form_delete_id, form_delete_all, submit_delete_all, is_clicked.
  destruct (clicked i) as [[| |]|]; cbn [fst snd store]; auto.
  - destruct df as [|r rows]; cbn [fst snd store]; auto.
    destruct (existsb _ _); cbn [fst snd store]; auto.
    rewrite <- Hst.
    destruct (delete_audit_by_id (input_delete_id i) (store w1))
      as [[deleted_count|e] db]; cbn [fst snd store]; auto.
    destruct (0 <? deleted_count); cbn [fst snd store]; auto.
  - destruct (admin_password i =? ADMIN_PASSWORD)%string;
      cbn [fst snd store]; auto.
    unfold delete_all_audits. rewrite Hst. auto.
Qed.

Lemma interaction_skips_store i w :
  creates i = false ->
  store (fst (interaction i w)) = store w \/
  store (fst (interaction i w))
  = snd (delete_audit_by_id (input_delete_id i) (store w)) \/
  store (fst (interaction i w)) = snd (delete_all_audits (store w)).
Proof.
  intro Hc. unfold interaction.
  pose proof (app_main_skips_store i w Hc) as H.
  destruct (app_main i w) as [[w1 out1] e1]. cbn [fst] in H.
  assert (Hsame : store (fst (let '(w2, out2, _) := app_main (no_click i) w1 in
                              (w2, (out1 ++ out2)%list))) = store w1).
  { pose proof (app_main_no_click_store i w1) as H2.
    now destruct (app_main (no_click i) w1) as [[w2 out2] e2]. }
  destruct e1; cbn [fst]; try exact H.
  now rewrite Hsame.
Qed.

Lemma interaction_rows i w r :
  In r (audits (store (fst (interaction i w)))) ->
  In r (audits (store w)) \/
  (creates i = true /\ r = created_row i (store w)).
Proof.
  destruct (creates i) eqn:Hc.
  - destruct (interaction_creates i w Hc) as (out & -> & _).
    cbn [fst store audits]. intro H. apply in_app_or in H.
    destruct H as [H|[<-|[]]]; auto.
  - destruct (interaction_skips_store i w Hc) as [->|[->| ->]]; auto.
    + intro H. apply delete_audit_by_id_In in H. tauto.
    + intros [].
Qed.

(** A property of rows that every created row has holds of every row
    of every table the page reaches. *)
Lemma after_rows (P : audit -> Prop) (Q : inputs -> Prop) :
  (forall i db, Q i -> creates i = true -> P (created_row i db)) ->
  forall trace w,
    Forall Q trace -> Forall P (audits (store w)) ->
    Forall P (audits (store (after trace w))).
Proof.
  intros Hnew trace. induction trace as [|i trace IH]; intros w HQ HP.
  - exact HP.
  - change (after (i :: trace) w) with (after trace (fst (interaction i w))).
    inversion HQ; subst. apply IH; auto.
    rewrite Forall_forall in *. intros r Hr.
    destruct (interaction_rows i w r Hr) as [Hin|[Hc ->]]; auto.
Qed.

(** X5: whatever is done on the page, every record in the table went
    through the validation of the form: its expected value is 0.00 and
    none of its three responsibles is the placeholder of the select
    boxes. *)
Theorem stored_records_are_validated (trace : list inputs) :
  Forall (fun r =>
            expected_value r = 0%float /\
            operator_name r <> placeholder /\
            supervisor_name r <> placeholder /\
            prevention_name r <> placeholder)
         (audits (store (after trace fresh_world))).
Proof.
  apply (after_rows _ (fun _ => True)).
  - intros i db _ Hc. unfold creates in Hc.
    apply andb_true_iff in Hc. destruct Hc as [Hc _].
    apply andb_true_iff in Hc. destruct Hc as [_ Hnames].
    apply negb_true_iff in Hnames.
    apply orb_false_iff in Hnames. destruct Hnames as [Hnames Hp].
    apply orb_false_iff in Hnames. destruct Hnames as [Ho Hs].
    apply String.eqb_neq in Ho, Hs, Hp.
    unfold created_row; cbn. auto.
  - apply Forall_forall. auto.
  - constructor.
Qed.

(** X6: with the bound the two number inputs enforce (min_value 0.00), no
    stored record has a negative amount in cash or in TEF. *)
Theorem stored_amounts_are_not_negative (trace : list inputs) :
  forallb amounts_ok trace = true ->
  Forall (fun r =>
            (0 <=? counted_value r)%float = true /\
            (0 <=? tef_value r)%float = true)
         (audits (store (after trace fresh_world))).
Proof.
  intro Hok.
  apply (after_rows _ (fun i => amounts_ok i = true)).
  - intros i db Hi _. unfold amounts_ok in Hi.
    apply andb_true_iff in Hi. cbn [created_row counted_value tef_value].
    now rewrite !leb_sqlite_real.
  - rewrite forallb_forall in Hok. apply Forall_forall. exact Hok.
  - constructor.
Qed.

Lemma stored_amounts_are_not_negative_witness :
  Forall (fun r =>
            (0 <=? counted_value r)%float = true /\
            (0 <=? tef_value r)%float = true)
         (audits (store (after [a_submit 100 120; a_submit 50 50]
                               fresh_world))).
Proof.
  apply stored_amounts_are_not_negative. reflexivity.
Defined.

(** X7: an id is never given twice: a record that enters the table later
    has an id above that of every record that was in the table before,
    whether or not that record was deleted in between. *)
Theorem ids_are_never_reused (trace more : list inputs) (r r' : audit) :
  let w := after trace fresh_world in
  In r (audits (store w)) ->
  In r' (audits (store (after more w))) ->
  ~ In r' (audits (store w)) ->
  id r < id r'.
Proof.
  intros w Hr Hr' Hnew.
  destruct (after_effect trace fresh_world eq_refl)
    as [(_ & Hrow & _) Hnone].
  fold w in Hrow, Hnone.
  destruct (Hrow fresh_world_rowids) as [_ Hle].
  rewrite Forall_forall in Hle. specialize (Hle r Hr).
  destruct (after_effect more w Hnone) as [([_ Hmore] & _) _].
  destruct (Hmore r' Hr') as [Hin|[Hlt _]]; [contradiction|lia].
Qed.

Lemma ids_are_never_reused_witness :
  id (created_row (a_submit 100 120) (init_db None))
  < id (mkaudit 2 "5" "2025-03-09 07:05:59" "A" "B" "C" 50 0 (50 - 50) 50).
Proof.
  apply (ids_are_never_reused [a_submit 100 120]
                              [a_delete_all; a_submit 50 50]).
  - vm_compute. left. reflexivity.
  - vm_compute. left. reflexivity.
  - vm_compute. intros [H|[]]. discriminate H.
Defined.

Lemma Classify_sqlite_real d : Classify (sqlite_real d) = Classify d.
Proof.
  unfold Classify. now rewrite sqlite_real_ltb, ltb_sqlite_real.
Qed.

(** X8: a create publishes what it stored: the interaction appends one row,
    remembers its id in [last_audit_id], shows after the alert that was
    pending (if one was) the alert of the terminal, the difference and
    the amounts entered, which the row holds as the REAL columns keep
    them, in the class of the stored difference, and leaves the slot
    empty. *)
Theorem create_publishes_stored_record (i : inputs) (w : world) :
  creates i = true ->
  exists r out,
    interaction i w
    = (mkworld (mkdb (audits (store w) ++ [r]) (id r))
               (mksession (id r) None), out) /\
    id r = next_rowid (store w) /\
    pdv_number r = pdv_select i /\
    stored_real (counted_input i) (counted_value r) /\
    stored_real (tef_input i) (tef_value r) /\
    stored_real (counted_input i - tef_input i) (difference r) /\
    alerts_in out
    = (pending_alert w ++
       [show_alert (mkresult (pdv_select i)
                             (counted_input i - tef_input i)
                             (counted_input i) (tef_input i))])%list /\
    alert_class (show_alert (mkresult (pdv_select i)
                                      (counted_input i - tef_input i)
                                      (counted_input i) (tef_input i)))
    = Some (Classify (difference r)).
Proof.
  intro Hc. destruct (interaction_creates i w Hc) as (out & Hi & Hal).
  exists (created_row i (store w)), out.
  split; [exact Hi|]. split; [reflexivity|]. split; [reflexivity|].
  cbn [created_row counted_value tef_value difference].
  split; [apply stored_real_sqlite_real|].
  split; [apply stored_real_sqlite_real|].
  split; [apply stored_real_sqlite_real|].
  split; [exact Hal|].
  rewrite alert_shows_class. cbn [result_difference].
  now rewrite Classify_sqlite_real.
Qed.

Lemma create_publishes_stored_record_witness :
  exists r out,
    interaction (a_submit 100 120) fresh_world
    = (mkworld (mkdb (audits (store fresh_world) ++ [r]) (id r))
               (mksession (id r) None), out) /\
    id r = next_rowid (store fresh_world) /\
    pdv_number r = "5" /\
    stored_real 100 (counted_value r) /\
    stored_real 120 (tef_value r) /\
    stored_real (100 - 120) (difference r) /\
    alerts_in out
    = (pending_alert fresh_world ++
       [show_alert (mkresult "5" (100 - 120) 100 120)])%list /\
    alert_class (show_alert (mkresult "5" (100 - 120) 100 120))
    = Some (Classify (difference r)).
Proof.
  apply (create_publishes_stored_record (a_submit 100 120) fresh_world).
  reflexivity.
Defined.

(** X9: a submit that the form rejects, for a placeholder among the three
    responsibles or for an INSERT that raises, stores nothing: the table
    and [last_audit_id] are as before, no result is published, and the run
    says why. *)
Theorem rejected_submit_stores_nothing (i : inputs) (w : world) :
  clicked i = Some audit_form_submit -> creates i = false ->
  exists out,
    interaction i w
    = (mkworld (store w) (mksession (last_audit_id (session w)) None), out) /\
    alerts_in out = pending_alert w /\
    In (if (operator_select i =? placeholder)%string
           || (supervisor_select i =? placeholder)%string
           || (prevention_select i =? placeholder)%string
        then error_select_all_responsibles else exception_saving) out.
Proof.
  intros Hclick Hc.
  pose proof (app_main_effect i w) as He. rewrite Hc in He.
  rewrite <- alert_section_world.
  unfold interaction, app_main in *.
  destruct (alert_section w) as [w1 out1]. cbn [fst].
  unfold audit_form, creates, form_delete_id, form_delete_all, is_clicked in *.
  rewrite Hclick in *. cbn [andb] in Hc.
  destruct ((operator_select i =? placeholder)%string
            || (supervisor_select i =? placeholder)%string
            || (prevention_select i =? placeholder)%string);
    [|destruct (insert_raises i); [|discriminate Hc]].
  all: destruct (load_audits_filtered _ _ (store w1)) as [df|e];
    [destruct (history df) as [out3|e]|];
    destruct He as (_ & Hal & _);
    eexists; (split; [reflexivity|]); (split; [exact Hal|]);
    apply in_or_app; right; simpl; auto.
Qed.

Lemma rejected_submit_stores_nothing_witness :
  exists out,
    interaction
      (mkinputs "5" placeholder "B" "C" 100 120 (mkdate 2025 3 1)
                (mkdate 2025 3 31) 1 "" (Some audit_form_submit) a_morning
                false)
      (mkworld two_day_ledger (mksession 3 None))
    = (mkworld two_day_ledger (mksession 3 None), out) /\
    alerts_in out = [] /\
    In error_select_all_responsibles out.
Proof.
  apply (rejected_submit_stores_nothing
           (mkinputs "5" placeholder "B" "C" 100 120 (mkdate 2025 3 1)
                     (mkdate 2025 3 31) 1 "" (Some audit_form_submit)
                     a_morning false)
           (mkworld two_day_ledger (mksession 3 None))); reflexivity.
Defined.

Lemma history_returns df_audits :
  exists out3, history df_audits = Returned out3 /\
               reports_not_found out3 = false.
Proof.
  unfold history. destruct df_audits as [|r rows]; [eauto|].
  rewrite df_display_value, df_display_clean_value. eauto.
Qed.

Lemma delete_count_positive x r rows :
  In r rows -> id r = x ->
  0 < Z.of_nat (List.length (filter (fun r => id r =? x) rows)).
Proof.
  intros Hr Hid.
  assert (Hin : In r (filter (fun r => id r =? x) rows))
    by (apply filter_In; split; [exact Hr|now apply Z.eqb_eq]).
  destruct (filter (fun r => id r =? x) rows); [contradiction|].
  simpl List.length. lia.
Qed.

Lemma form_delete_id_quiet i df_audits w :
  (forall r, In r df_audits -> In r (audits (store w))) ->
  reports_not_found (snd (fst (form_delete_id i df_audits w))) = false.
Proof.
  intro Hsub. unfold form_delete_id.
  destruct (is_clicked form_delete_id_submit i); [|reflexivity].
  destruct df_audits as [|first rest]; [reflexivity|].
  destruct (existsb _ _) eqn:E; [|reflexivity].
  apply existsb_exists in E. destruct E as (r & Hr & Hid).
  apply Z.eqb_eq in Hid.
  pose proof (delete_count_positive _ r _ (Hsub r Hr) Hid) as Hpos.
  apply Z.ltb_lt in Hpos.
  destruct (fits_int64 (input_delete_id i)) eqn:Hfit.
  - rewrite delete_audit_by_id_fits by assumption. now rewrite Hpos.
  - now rewrite delete_audit_by_id_overflow by assumption.
Qed.

Lemma count_positive_existsb {A} (f : A -> bool) l :
  (0 <? Z.of_nat (List.length (filter f l))) = existsb f l.
Proof.
  induction l as [|a l IH]; [reflexivity|]. simpl.
  destruct (f a); [|exact IH]. simpl List.length.
  apply Z.ltb_lt. lia.
Qed.

Lemma is_clicked_iff b i : is_clicked b i = true <-> clicked i = Some b.
Proof.
  unfold is_clicked.
  destruct (clicked i) as [[| |]|], b; split; intro H;
    try reflexivity; discriminate.
Qed.

(** X10: the warning "the id was not found", which the form keeps for a
    DELETE that removes nothing, is shown exactly when the id is in the
    history that was read and no longer in the table when the DELETE
    runs: the history is stale, another session has deleted the record
    in between.  In a run that reads the history and deletes from the
    same state of the table, the warning is not shown. *)
Theorem delete_form_misses_on_stale_history
    (i : inputs) (df_audits : list audit) (w : world) :
  (reports_not_found (snd (fst (form_delete_id i df_audits w))) = true <->
   clicked i = Some form_delete_id_submit /\
   existsb (fun r => id r =? input_delete_id i) df_audits = true /\
   fits_int64 (input_delete_id i) = true /\
   existsb (fun r => id r =? input_delete_id i) (audits (store w)) = false) /\
  reports_not_found (snd (fst (app_main i w))) = false.
Proof.
  split.
  { unfold form_delete_id. rewrite <- is_clicked_iff.
    destruct (is_clicked form_delete_id_submit i);
      [|cbn; intuition discriminate].
    destruct df_audits as [|first rest]; [cbn; intuition discriminate|].
    destruct (existsb _ (first :: rest));
      [|cbn; intuition discriminate].
    destruct (fits_int64 (input_delete_id i)) eqn:Hfit.
    - rewrite delete_audit_by_id_fits by assumption.
      rewrite count_positive_existsb.
      destruct (existsb _ (audits (store w))); cbn; intuition discriminate.
    - rewrite delete_audit_by_id_overflow by assumption.
      cbn; intuition discriminate. }
  unfold app_main.
  assert (H1 : reports_not_found (snd (alert_section w)) = false)
    by (unfold alert_section; now destruct (audit_result (session w))).
  destruct (alert_section w) as [w1 out1]. cbn [snd] in H1.
  assert (H2 : reports_not_found (snd (fst (audit_form i w1))) = false).
  { unfold audit_form.
    destruct (is_clicked audit_form_submit i); [|reflexivity].
    destruct (_ || _); [reflexivity|].
    destruct (insert_raises i); reflexivity. }
  assert (Hsame : audit_form i w1 = (fst (fst (audit_form i w1)),
                                     snd (fst (audit_form i w1)),
                                     snd (audit_form i w1)))
    by now destruct (audit_form i w1) as [[? ?] ?].
  assert (H2' : creates i = false -> fst (fst (audit_form i w1)) = w1).
  { intro Hc. now destruct (audit_form_skips i w1 Hc) as (out2 & -> & _). }
  pose proof (audit_form_effect i w1) as He.
  destruct (audit_form i w1) as [[w2 out2] again]. cbn [fst snd] in *.
  destruct He as (_ & _ & Hagain & _).
  unfold reports_not_found in *.
  destruct again; cbn [fst snd].
  - now rewrite existsb_app, H1, H2.
  - rewrite (H2' (eq_sym Hagain)).
    destruct (load_audits_filtered _ _ (store w1)) as [df|e] eqn:El;
      cbn [fst snd]; [|now rewrite existsb_app, H1, H2].
    destruct (history_returns df) as (out3 & -> & H3).
    assert (H4 := form_delete_id_quiet i df w1
                    (fun r => load_audits_filtered_In _ _ _ _ r El)).
    destruct (form_delete_id i df w1) as [[w3 out4] again3].
    cbn [fst snd] in H4. unfold reports_not_found in *.
    destruct again3 as [| |e3]; cbn [fst snd];
      [|now rewrite !existsb_app, H1, H2, H3, H4
       |now rewrite !existsb_app, H1, H2, H3, H4].
    + assert (H5 : existsb (fun e => match e with
                                     | warning_id_not_found _ => true
                                     | _ => false
                                     end)
                           (snd (fst (form_delete_all i w3))) = false).
      { unfold form_delete_all, submit_delete_all.
        destruct (is_clicked form_delete_all_submit i); [|reflexivity].
        destruct (_ =? _)%string; reflexivity. }
      destruct (form_delete_all i w3) as [[w4 out5] again4].
      cbn [fst snd] in *.
      now rewrite !existsb_app, H1, H2, H3, H4, H5.
Qed.

(** X11: the delete-by-id button reaches only the records of the period on
    display.  For an id that the history on the page does not contain,
    even one that is in the table under another date, the run deletes
    nothing and shows a warning. *)
Theorem delete_needs_displayed_id (i : inputs) (w : world) df_audits :
  clicked i = Some form_delete_id_submit ->
  load_audits_filtered (Some (start_date i)) (Some (end_date i)) (store w)
  = Returned df_audits ->
  existsb (fun r => id r =? input_delete_id i) df_audits = false ->
  exists out,
    app_main i w
    = (mkworld (store w) (mksession (last_audit_id (session w)) None),
       out, finished) /\
    In (match df_audits with
        | [] => warning_nothing_to_delete
        | _ :: _ => warning_id_not_in_history (input_delete_id i)
        end) out.
Proof.
  intros Hclick Hload Hnot.
  rewrite <- alert_section_world.
  unfold app_main.
  pose proof (alert_section_effect w) as H1.
  destruct (alert_section w) as [w1 out1]. destruct H1 as (Hst & _).
  unfold audit_form, form_delete_id, form_delete_all, is_clicked.
  rewrite Hclick, Hst, Hload.
  destruct (history_returns df_audits) as (out3 & -> & _).
  destruct df_audits as [|first rest].
  - eexists. split; [reflexivity|].
    apply in_or_app; right. apply in_or_app; right.
    apply in_or_app; right. now left.
  - rewrite Hnot.
    eexists. split; [reflexivity|].
    apply in_or_app; right. apply in_or_app; right.
    apply in_or_app; right. now left.
Qed.

Lemma delete_needs_displayed_id_witness :
  exists out,
    app_main (a_delete_of 3) (mkworld two_day_ledger (mksession 3 None))
    = (mkworld two_day_ledger (mksession 3 None), out, finished) /\
    In (match audits one_day_ledger with
        | [] => warning_nothing_to_delete
        | _ :: _ => warning_id_not_in_history 3
        end) out.
Proof.
  apply (delete_needs_displayed_id
           (a_delete_of 3) (mkworld two_day_ledger (mksession 3 None))
           (audits one_day_ledger));
    vm_compute; reflexivity.
Defined.

Lemma ids_max_spec rest first :
  In (ids_max first rest) (map id (first :: rest)) /\
  Forall (fun r => id r <= ids_max first rest) (first :: rest).
Proof.
  unfold ids_max.
  assert (H : forall m,
             (fold_left (fun m r => Z.max m (id r)) rest m = m \/
              In (fold_left (fun m r => Z.max m (id r)) rest m) (map id rest)) /\
             m <= fold_left (fun m r => Z.max m (id r)) rest m /\
             Forall (fun r => id r <= fold_left (fun m r => Z.max m (id r)) rest m)
                    rest).
  { induction rest as [|r rest IH]; intro m; simpl.
    - repeat split; auto. lia.
    - destruct (IH (Z.max m (id r))) as (Hin & Hle & Hall).
      split; [|split; [lia|constructor; [lia|exact Hall]]].
      destruct Hin as [Heq|Hin]; [|auto].
      rewrite Heq. destruct (Z.max_spec m (id r)) as [[_ ->]|[_ ->]]; auto. }
  destruct (H (id first)) as (Hin & Hle & Hall).
  split; [|constructor; auto].
  simpl. destruct Hin as [->|Hin]; auto.
Qed.

Lemma ids_min_spec rest first :
  In (ids_min first rest) (map id (first :: rest)) /\
  Forall (fun r => ids_min first rest <= id r) (first :: rest).
Proof.
  unfold ids_min.
  assert (H : forall m,
             (fold_left (fun m r => Z.min m (id r)) rest m = m \/
              In (fold_left (fun m r => Z.min m (id r)) rest m) (map id rest)) /\
             fold_left (fun m r => Z.min m (id r)) rest m <= m /\
             Forall (fun r => fold_left (fun m r => Z.min m (id r)) rest m <= id r)
                    rest).
  { induction rest as [|r rest IH]; intro m; simpl.
    - repeat split; auto. lia.
    - destruct (IH (Z.min m (id r))) as (Hin & Hle & Hall).
      split; [|split; [lia|constructor; [lia|exact Hall]]].
      destruct Hin as [Heq|Hin]; [|auto].
      rewrite Heq. destruct (Z.min_spec m (id r)) as [[_ ->]|[_ ->]]; auto. }
  destruct (H (id first)) as (Hin & Hle & Hall).
  split; [|constructor; auto].
  simpl. destruct Hin as [->|Hin]; auto.
Qed.

(** X12: the id that the delete input proposes is one of the history on the
    page, the largest, and the smallest and the largest id frame all the
    others; so a click on the button with the proposed value deletes that
    record and asks for a rerun.  (Were the proposed id outside 64 bits,
    which no id of a table is, the DELETE would raise OverflowError and
    end the run.) *)
Theorem default_id_deletes (i : inputs) first rest (w : world) :
  clicked i = Some form_delete_id_submit ->
  input_delete_id i = default_id (first :: rest) ->
  (forall r, In r (first :: rest) -> In r (audits (store w))) ->
  In (default_id (first :: rest)) (map id (first :: rest)) /\
  Forall (fun r => ids_min first rest <= id r <= default_id (first :: rest))
         (first :: rest) /\
  form_delete_id i (first :: rest) w
  = if fits_int64 (default_id (first :: rest))
    then
      (mkworld (snd (delete_audit_by_id (default_id (first :: rest))
                                        (store w)))
               (session w),
       [success_deleted_id (default_id (first :: rest))], rerun)
    else (mkworld (store w) (session w), [], crashed OverflowError).
Proof.
  intros Hclick Hid Hsub.
  destruct (ids_max_spec rest first) as [Hin Hmax].
  destruct (ids_min_spec rest first) as [_ Hmin].
  cbn [default_id] in *.
  split; [exact Hin|]. split.
  - rewrite Forall_forall in *. intros r Hr.
    split; [now apply Hmin|now apply Hmax].
  - unfold form_delete_id, is_clicked. rewrite Hclick, Hid.
    apply in_map_iff in Hin. destruct Hin as (r & Hr & Hin).
    assert (E : existsb (fun r0 => id r0 =? ids_max first rest) (first :: rest)
                = true).
    { apply existsb_exists. exists r. split; [exact Hin|now apply Z.eqb_eq]. }
    rewrite E.
    pose proof (delete_count_positive _ r _ (Hsub r Hin) Hr) as Hpos.
    apply Z.ltb_lt in Hpos.
    destruct (fits_int64 (ids_max first rest)) eqn:Hfit.
    + rewrite delete_audit_by_id_fits by assumption. cbn [snd].
      now rewrite Hpos.
    + now rewrite delete_audit_by_id_overflow by assumption.
Qed.

Lemma default_id_deletes_witness :
  In (default_id (audits one_day_ledger)) (map id (audits one_day_ledger)) /\
  Forall (fun r => 1 <= id r <= default_id (audits one_day_ledger))
         (audits one_day_ledger) /\
  form_delete_id (a_delete_of 2) (audits one_day_ledger)
                 (mkworld two_day_ledger (mksession 3 None))
  = (mkworld (snd (delete_audit_by_id (default_id (audits one_day_ledger))
                                      two_day_ledger))
             (mksession 3 None),
     [success_deleted_id (default_id (audits one_day_ledger))], rerun).
Proof.
  apply (default_id_deletes
           (a_delete_of 2)
           (mkaudit 1 "6" "2025-03-09 07:05:59" "A" "B" "C" 50 0 (50 - 50) 50)
           [mkaudit 2 "5" "2025-03-09 07:05:59" "A" "B" "C" 100 0
                    (100 - 120) 120]
           (mkworld two_day_ledger (mksession 3 None))).
  - reflexivity.
  - reflexivity.
  - vm_compute. intros r [H|[H|[]]]; auto.
Defined.

(** *** The Brazilian separators *)

Lemma replace_chain c :
  Ascii.eqb c "X" = false ->
  (let c1 := if Ascii.eqb c "," then "X"%char else c in
   let c2 := if Ascii.eqb c1 "." then ","%char else c1 in
   if Ascii.eqb c2 "X" then "."%char else c2) = br_separator c.
Proof.
  intro HX. unfold br_separator. cbv zeta.
  destruct (Ascii.eqb c ",") eqn:Ec.
  - reflexivity.
  - destruct (Ascii.eqb c ".") eqn:Ed.
    + reflexivity.
    + now rewrite HX.
Qed.

Lemma replace_swaps s :
  has_char "X" s = false ->
  replace "X" "." (replace "." "," (replace "," "X" s))
  = map_chars br_separator s.
Proof.
  induction s as [|c s IH]; intro H; [reflexivity|].
  cbn [has_char] in H. apply orb_false_iff in H. destruct H as [Hc Hs].
  cbn [replace map_chars]. rewrite (IH Hs). f_equal.
  now apply replace_chain.
Qed.

Lemma replace_app old new a b :
  replace old new (a ++ b) = replace old new a ++ replace old new b.
Proof. induction a as [|c a IH]; simpl; [reflexivity|now rewrite IH]. Qed.

(** X14: [format_currency_br] turns Python's text for the amount, with
    commas between thousands and a point before the decimals, into the
    Brazilian form: after "R$ " every comma has become a point and every
    point a comma, and no other character has changed.  The letter X
    that the function passes through must not occur in the text. *)
Theorem format_currency_br_swaps format_comma_2f (val : float) :
  is_nan val = false ->
  has_char "X" (format_comma_2f val) = false ->
  format_currency_br format_comma_2f val
  = "R$ " ++ map_chars br_separator (format_comma_2f val).
Proof.
  intros Hnan HX. unfold format_currency_br. rewrite Hnan.
  rewrite !replace_app. rewrite (replace_swaps _ HX). reflexivity.
Qed.

Lemma format_currency_br_swaps_witness :
  format_currency_br (fun _ => "-1,234,567.80") (-1234567.8)%float
  = "R$ " ++ map_chars br_separator "-1,234,567.80".
Proof.
  apply (format_currency_br_swaps (fun _ => "-1,234,567.80")
                                  (-1234567.8)%float); reflexivity.
Defined.

(** *** Timestamps *)

(** X15: the TEXT that [save_audit] stores keeps the reading of the clock to
    the second: two readings give the same text only if they are the same
    second, and the texts compare as the readings do on the calendar. *)
Theorem timestamp_text_keeps_the_second (t1 t2 : datetime) :
  clock_ok t1 = true -> clock_ok t2 = true ->
  (strftime_YmdHMS t1 = strftime_YmdHMS t2 <-> t1 = t2) /\
  ((strftime_YmdHMS t1 <? strftime_YmdHMS t2)%string = true <->
   datetime_compare t1 t2 = Lt) /\
  String.length (strftime_YmdHMS t1) = 19%nat.
Proof.
  intros H1 H2. split; [|split].
  - split; [|now intros ->].
    intro H. pose proof (strptime_strftime t1 H1) as E1.
    rewrite H, (strptime_strftime t2 H2) in E1. now inversion E1.
  - unfold String.ltb. rewrite strftime_YmdHMS_compare by assumption.
    destruct (datetime_compare t1 t2); split; congruence.
  - unfold strftime_YmdHMS.
    rewrite !length_app, strftime_Ymd_length, !zero_pad_length;
      [reflexivity|].
    apply clock_ok_bounds in H1. tauto.
Qed.

Lemma timestamp_text_keeps_the_second_witness :
  (strftime_YmdHMS a_morning = strftime_YmdHMS an_evening <->
   a_morning = an_evening) /\
  ((strftime_YmdHMS a_morning <? strftime_YmdHMS an_evening)%string = true <->
   datetime_compare a_morning an_evening = Lt) /\
  String.length (strftime_YmdHMS a_morning) = 19%nat.
Proof.
  apply timestamp_text_keeps_the_second; reflexivity.
Defined.

(** *** The delete-all button on the page *)

(** X16: with the configured password, and a filter that lets the run reach
    the form, the interaction empties the table, says how many records
    there were, sets [last_audit_id] to 0 and leaves the counter of ids
    where it was: the next record does not start again at 1. *)
Theorem delete_all_on_the_page (i : inputs) (w : world) :
  clicked i = Some form_delete_all_submit ->
  admin_password i = ADMIN_PASSWORD ->
  add_one_day (end_date i) <> None ->
  exists out,
    interaction i w
    = (mkworld (mkdb [] (sqlite_sequence (store w))) (mksession 0 None),
       out) /\
    In (success_deleted_all (Z.of_nat (List.length (audits (store w))))) out /\
    next_rowid (store (fst (interaction i w)))
    = Z.max (sqlite_sequence (store w)) 0 + 1.
Proof.
  intros Hclick Hpw Hday.
  assert (Hfirst : exists out1,
             app_main i w
             = (mkworld (mkdb [] (sqlite_sequence (store w)))
                        (mksession 0 None), out1, rerun) /\
             In (success_deleted_all
                   (Z.of_nat (List.length (audits (store w))))) out1).
  { unfold app_main.
    pose proof (alert_section_world w) as Hw.
    destruct (alert_section w) as [w1 out1]. cbn [fst] in Hw. subst w1.
    unfold audit_form, form_delete_id, form_delete_all, submit_delete_all,
      is_clicked.
    rewrite Hclick, Hpw. cbn [store session audit_result].
    unfold load_audits_filtered.
    destruct (add_one_day (end_date i)) as [next|]; [|contradiction].
    destruct (history_returns
                (read_sql_query
                   ([audit_datetime_ge (strftime_midnight (start_date i))]
                    ++ [audit_datetime_lt (strftime_midnight next)])
                   (store w))) as (out3 & -> & _).
    eexists. split; [reflexivity|].
    repeat (apply in_or_app; right). now left. }
  destruct Hfirst as (out1 & Hrun & Hin).
  unfold interaction. rewrite Hrun.
  pose proof (app_main_no_click i
                (mkworld (mkdb [] (sqlite_sequence (store w)))
                         (mksession 0 None))) as Hw.
  destruct (app_main (no_click i) _) as [[w2 out2] e2].
  cbn [fst] in Hw. rewrite alert_section_world in Hw. cbn in Hw. subst w2.
  eexists. split; [reflexivity|]. split.
  - apply in_or_app. now left.
  - reflexivity.
Qed.

Lemma delete_all_on_the_page_witness :
  exists out,
    interaction a_delete_all (mkworld two_day_ledger (mksession 3 None))
    = (mkworld (mkdb [] 3) (mksession 0 None), out) /\
    In (success_deleted_all 3) out /\
    next_rowid (store (fst (interaction a_delete_all
                              (mkworld two_day_ledger (mksession 3 None)))))
    = 4.
Proof.
  apply (delete_all_on_the_page
           a_delete_all (mkworld two_day_ledger (mksession 3 None)));
    try reflexivity; discriminate.
Defined.

(** *** The rows of the table on the page and their colours *)

(** X17: the history shows every record of the query once, in the order of
    the query, and the style of each row is the one of the class of that
    row's own difference; an empty query shows the note instead. *)
Theorem history_highlights_each_row (df_audits : list audit) :
  match df_audits with
  | [] => history df_audits = Returned [info_no_audits_in_period]
  | _ :: _ =>
      exists table styles data,
        history df_audits
        = Returned [dataframe table styles currency_columns;
                    download_button data] /\
        columns table = cols_to_display /\
        values table = map page_cells df_audits /\
        Forall2 (fun row style =>
                   exists d, nth 8 row (cell_text "") = cell_real d /\
                             style_class style = Some (Classify d))
                (values table) styles
  end.
Proof.
  destruct df_audits as [|first rest]; [reflexivity|].
  unfold history. rewrite df_display_value, df_display_clean_value.
  do 3 eexists. split; [reflexivity|]. split; [reflexivity|].
  split; [reflexivity|]. cbn [values].
  generalize (first :: rest). intro rows.
  induction rows as [|r rows IH]; simpl; constructor; auto.
  exists (difference r). split; [reflexivity|].
  unfold Classify.
  destruct (difference r <? -0.005)%float; [reflexivity|].
  destruct (0.005 <? difference r)%float; reflexivity.
Qed.

(** *** The name of the downloaded file *)

Lemma string_compare_refl (s : string) : String.compare s s = Eq.
Proof.
  induction s as [|c s IH]; [reflexivity|]. now rewrite compare_cons_same.
Qed.

Lemma append_inv_length (a1 a2 b1 b2 : string) :
  String.length a1 = String.length a2 ->
  a1 ++ b1 = a2 ++ b2 -> a1 = a2 /\ b1 = b2.
Proof.
  revert a2. induction a1 as [|c a1 IH]; intros [|c' a2] Hlen H;
    simpl in *; try discriminate; auto.
  injection H as -> H. injection Hlen as Hlen.
  destruct (IH a2 Hlen H) as [-> ->]. auto.
Qed.

Lemma pad2_inj a b :
  (a < 100)%N -> (b < 100)%N -> zero_pad 2 a = zero_pad 2 b -> a = b.
Proof.
  intros Ha Hb H. apply N.compare_eq_iff.
  rewrite <- (pad2_compare a b Ha Hb), H. apply string_compare_refl.
Qed.

Lemma pad4_inj a b :
  (a < 10000)%N -> (b < 10000)%N -> zero_pad 4 a = zero_pad 4 b -> a = b.
Proof.
  intros Ha Hb H. apply N.compare_eq_iff.
  rewrite <- (pad4_compare a b Ha Hb), H. apply string_compare_refl.
Qed.

Lemma strftime_compact_length d :
  filter_date_ok d = true -> String.length (strftime_compact d) = 8%nat.
Proof.
  intro H. apply filter_date_ok_bounds in H. destruct H as [_ H].
  unfold strftime_compact. rewrite strftime_Y_four by assumption.
  now rewrite !length_app, !zero_pad_length.
Qed.

Lemma strftime_compact_inj a b :
  filter_date_ok a = true -> filter_date_ok b = true ->
  strftime_compact a = strftime_compact b -> a = b.
Proof.
  intros Ha Hb H. apply filter_date_ok_bounds in Ha, Hb.
  destruct Ha as [Ha Hya], Hb as [Hb Hyb].
  apply date_ok_bounds in Ha, Hb.
  pose proof (days_in_month_bounds (year a) (month a)).
  pose proof (days_in_month_bounds (year b) (month b)).
  unfold strftime_compact in H. rewrite !strftime_Y_four in H by assumption.
  apply append_inv_length in H; [|now rewrite !zero_pad_length].
  destruct H as [Hy H].
  apply append_inv_length in H; [|now rewrite !zero_pad_length].
  destruct H as [Hm Hd].
  apply pad4_inj in Hy; [|lia|lia].
  apply pad2_inj in Hm; [|lia|lia].
  apply pad2_inj in Hd; [|lia|lia].
  destruct a, b; simpl in *; congruence.
Qed.

(** X18: the file offered for download is named after the period on display,
    auditorias_YYYYMMDD_YYYYMMDD.xlsx: the name has 33 characters and two
    different periods never get the same name. *)
Theorem download_name_tells_the_period (s1 e1 s2 e2 : date) :
  filter_date_ok s1 = true -> filter_date_ok e1 = true ->
  filter_date_ok s2 = true -> filter_date_ok e2 = true ->
  String.length (download_file_name s1 e1) = 33%nat /\
  (download_file_name s1 e1 = download_file_name s2 e2 ->
   s1 = s2 /\ e1 = e2).
Proof.
  intros Hs1 He1 Hs2 He2.
  unfold download_file_name. split.
  - now rewrite !length_app, !strftime_compact_length.
  - intro H.
    apply append_inv_length in H; [|reflexivity]. destruct H as [_ H].
    apply append_inv_length in H; [|now rewrite !strftime_compact_length].
    destruct H as [Hs H].
    apply append_inv_length in H; [|reflexivity]. destruct H as [_ H].
    apply append_inv_length in H; [|now rewrite !strftime_compact_length].
    destruct H as [He _].
    split; now apply strftime_compact_inj.
Qed.

Lemma download_name_tells_the_period_witness :
  String.length (download_file_name (mkdate 2025 3 1) (mkdate 2025 3 31))
  = 33%nat /\
  (download_file_name (mkdate 2025 3 1) (mkdate 2025 3 31)
   = download_file_name (mkdate 2025 3 1) (mkdate 2025 3 31) ->
   mkdate 2025 3 1 = mkdate 2025 3 1 /\ mkdate 2025 3 31 = mkdate 2025 3 31).
Proof.
  apply download_name_tells_the_period; reflexivity.
Defined.

(** *** The delete-by-id button on the page *)

(** X19: for an id of the history on display, the interaction deletes the
    rows with that id from the table, says so, and leaves the session as
    it was but for the slot of the alert, which is empty.  (Were the id
    outside 64 bits, which no id of a table is, the DELETE would raise
    OverflowError and end the run with the table as it was.) *)
Theorem delete_by_id_on_the_page (i : inputs) (w : world) df_audits :
  clicked i = Some form_delete_id_submit ->
  load_audits_filtered (Some (start_date i)) (Some (end_date i)) (store w)
  = Returned df_audits ->
  existsb (fun r => id r =? input_delete_id i) df_audits = true ->
  if fits_int64 (input_delete_id i)
  then
    exists out,
      interaction i w
      = (mkworld (snd (delete_audit_by_id (input_delete_id i) (store w)))
                 (mksession (last_audit_id (session w)) None), out) /\
      In (success_deleted_id (input_delete_id i)) out /\
      forall r, In r (audits (store (fst (interaction i w)))) <->
                In r (audits (store w)) /\ id r <> input_delete_id i
  else
    exists out,
      app_main i w
      = (mkworld (store w) (mksession (last_audit_id (session w)) None),
         out, crashed OverflowError).
Proof.
  intros Hclick Hload Hin.
  destruct (fits_int64 (input_delete_id i)) eqn:Hfit.
  2:{ unfold app_main.
      pose proof (alert_section_world w) as Hw.
      destruct (alert_section w) as [w1 out1]. cbn [fst] in Hw. subst w1.
      unfold audit_form, form_delete_id, is_clicked.
      rewrite Hclick. cbn [store session]. rewrite Hload.
      destruct (history_returns df_audits) as (out3 & -> & _).
      destruct df_audits as [|first rest]; [discriminate Hin|].
      rewrite Hin.
      rewrite delete_audit_by_id_overflow by assumption.
      eexists. reflexivity. }
  assert (Hfirst : exists out1,
             app_main i w
             = (mkworld (snd (delete_audit_by_id (input_delete_id i) (store w)))
                        (mksession (last_audit_id (session w)) None),
                out1, rerun) /\
             In (success_deleted_id (input_delete_id i)) out1).
  { unfold app_main.
    pose proof (alert_section_world w) as Hw.
    destruct (alert_section w) as [w1 out1]. cbn [fst] in Hw. subst w1.
    unfold audit_form, form_delete_id, is_clicked.
    rewrite Hclick. cbn [store session]. rewrite Hload.
    destruct (history_returns df_audits) as (out3 & -> & _).
    destruct df_audits as [|first rest]; [discriminate Hin|].
    rewrite Hin.
    apply existsb_exists in Hin. destruct Hin as (r & Hr & Hid).
    apply Z.eqb_eq in Hid.
    pose proof (delete_count_positive _ r _
                  (load_audits_filtered_In _ _ _ _ r Hload Hr) Hid) as Hpos.
    apply Z.ltb_lt in Hpos.
    rewrite delete_audit_by_id_fits by assumption. rewrite Hpos. cbn [snd].
    eexists. split; [reflexivity|].
    repeat (apply in_or_app; right). now left. }
  destruct Hfirst as (out1 & Hrun & Hout).
  unfold interaction. rewrite Hrun.
  pose proof (app_main_no_click i
                (mkworld
                   (snd (delete_audit_by_id (input_delete_id i) (store w)))
                   (mksession (last_audit_id (session w)) None))) as Hw.
  destruct (app_main (no_click i) _) as [[w2 out2] e2].
  cbn [fst] in Hw. rewrite alert_section_world in Hw.
  cbn [store session last_audit_id] in Hw. subst w2.
  eexists. split; [reflexivity|]. split.
  - apply in_or_app. now left.
  - intro r. rewrite delete_audit_by_id_fits by assumption.
    cbn [fst store snd audits].
    rewrite filter_In, negb_true_iff, Z.eqb_neq. tauto.
Qed.

Lemma delete_by_id_on_the_page_witness :
  exists out,
    interaction (a_delete_of 2) (mkworld two_day_ledger (mksession 3 None))
    = (mkworld (snd (delete_audit_by_id 2 two_day_ledger))
               (mksession 3 None), out) /\
    In (success_deleted_id 2) out /\
    forall r,
      In r (audits (store (fst (interaction (a_delete_of 2)
                                  (mkworld two_day_ledger
                                           (mksession 3 None)))))) <->
      In r (audits two_day_ledger) /\ id r <> 2.
Proof.
  apply (delete_by_id_on_the_page
           (a_delete_of 2) (mkworld two_day_ledger (mksession 3 None))
           (audits one_day_ledger));
    vm_compute; reflexivity.
Defined.

